(** * csdfpy dimension subsystem: a shallow embedding and its properties

    The development follows the layout of the Python sources:

    - [Py]: the fragment of the Python run time the sources rely on
      (dynamically typed values, exceptions, [str.strip]/[str.split],
      substring test, float64 values, a few numpy array primitives);
    - [QuantityLib]: the external quantity/unit collaborator
      (astropy quantities and the helpers of [csdfpy/_utils.py], which
      are not among the sources);
    - [IndependentVariables]: [csdfpy/_independent_variables.py];
    - [Facade]: [csdfpy/ControlledVariable.py];
    - [Studium]: [studium/nonLinearQuantitative.py];
    - [NumpyWrapper]: the index check of
      [csdmpy/numpy_wrapper/__init__.py].

    Mutators are functions in a state-and-exception monad: a call
    returns either a value or the raised exception, together with the
    object as the call left it (attribute writes performed before a
    [raise] persist, as in Python). *)

From Stdlib Require Import ZArith QArith Lia List String Ascii.
From stdpp Require Import base option list gmap strings.

Set Warnings "-register-all".
Local Open Scope Z_scope.

(** ** Python run time *)

Module Py.

(** Exceptions raised by the modelled code.  [Exception msg] is the bare
    [Exception("...")] of [ControlledVariable.py]; [LibraryError] stands
    for whatever the quantity collaborator raises (format and
    dimensionality errors). *)
Inductive exn : Type :=
  | TypeError
  | ValueError
  | AttributeError
  | IndexError
  | KeyError
  | UnboundLocalError
  | NotImplementedError
  | Exception (msg : string)
  | LibraryError (tag : string).

(** A Python [str] is its sequence of Unicode code points. *)
Definition str := list N.

(** The code points of an ASCII literal. *)
Definition py (s : string) : str :=
  List.map N_of_ascii (list_ascii_of_string s).

(** [str.isspace] on one code point ([Py_UNICODE_ISSPACE]). *)
Definition isspace (c : N) : bool :=
  ((9 <=? c) && (c <=? 13) || (28 <=? c) && (c <=? 32)
   || (c =? 133) || (c =? 160) || (c =? 5760)
   || (8192 <=? c) && (c <=? 8202) || (c =? 8232) || (c =? 8233)
   || (c =? 8239) || (c =? 8287) || (c =? 12288))%N.

(** [s.lstrip()], [s.rstrip()] and [s.strip()] without argument. *)
Fixpoint lstrip (s : str) : str :=
  match s with
  | c :: s' => if isspace c then lstrip s' else s
  | [] => []
  end.

Definition rstrip (s : str) : str := rev (lstrip (rev s)).

Definition strip (s : str) : str := rstrip (lstrip s).

(** [s.split()] without argument: the maximal runs of non-whitespace
    code points, in order.  [cur] is the token being read, reversed. *)
Fixpoint split_aux (cur : str) (s : str) : list str :=
  match s with
  | [] => match cur with [] => [] | _ => [rev cur] end
  | c :: s' =>
      if isspace c
      then match cur with
           | [] => split_aux [] s'
           | _ => rev cur :: split_aux [] s'
           end
      else split_aux (c :: cur) s'
  end.

Definition split (s : str) : list str := split_aux [] s.

(** [x in lst] for a list of strings. *)
Definition str_eqb (a b : str) : bool := bool_decide (a = b).

Definition in_list (x : str) (lst : list str) : bool :=
  existsb (str_eqb x) lst.

(** [a in b] for two strings: [a] occurs in [b] as a substring. *)
Definition in_str (a b : string) : bool :=
  match String.index 0 a b with Some _ => true | None => false end.

(** Dynamically typed values, as far as the modelled code inspects
    them ([isinstance], [is None], truthiness). *)
Inductive val : Type :=
  | VNone
  | VBool (b : bool)
  | VInt (z : Z)
  | VFloat (q : Q)
  | VStr (s : str)
  | VList (l : list val)
  | VDict (d : gmap string val).

(** [isinstance(v, int)]: [bool] is a subclass of [int]. *)
Definition isinstance_int (v : val) : option Z :=
  match v with
  | VInt z => Some z
  | VBool b => Some (if b then 1 else 0)
  | _ => None
  end.

Definition isinstance_str (v : val) : option str :=
  match v with VStr s => Some s | _ => None end.

Definition isinstance_bool (v : val) : option bool :=
  match v with VBool b => Some b | _ => None end.

Definition is_None (v : val) : bool :=
  match v with VNone => true | _ => false end.

(** [len(v)]; an object without a length raises [TypeError]. *)
Definition len (v : val) : option Z :=
  match v with
  | VStr s => Some (Z.of_nat (List.length s))
  | VList l => Some (Z.of_nat (List.length l))
  | VDict d => Some (Z.of_nat (size d))
  | _ => None
  end.

(** Truth value of an object in a condition. *)
Definition truthy (v : val) : bool :=
  match v with
  | VNone => false
  | VBool b => b
  | VInt z => negb (z =? 0)
  | VFloat q => negb (Qeq_bool q 0)
  | VStr s => negb (bool_decide (s = []))
  | VList l => negb (Nat.eqb (List.length l) 0)
  | VDict d => negb (Nat.eqb (size d) 0)
  end.

(** float64 values.  A finite value is the rational number it denotes,
    the three special values are kept apart, and the two zeros are not
    told apart.  The arithmetic rounds as binary64 does: to the nearest
    representable number, ties to the even significand, and to an
    infinity beyond the largest one. *)
Inductive float : Type :=
  | Fin (q : Q)
  | PInf
  | NInf
  | NaN.

Definition inf : float := PInf.

(** The integer nearest to [n / d] for [0 < d], ties to even. *)
Definition round_half_even (n d : Z) : Z :=
  let q := n / d in
  match 2 * (n mod d) ?= d with
  | Lt => q
  | Gt => q + 1
  | Eq => if Z.even q then q else q + 1
  end.

(** [⌊log2 (n / d)⌋] for [0 < n] and [0 < d]. *)
Definition floor_log2 (n d : Z) : Z :=
  let l := Z.log2 n - Z.log2 d in
  if (if 0 <=? l then d * 2 ^ l <=? n else d <=? n * 2 ^ (- l))
  then l else l - 1.

(** The binary64 value of a rational: a significand [m] of at most 53
    bits and an exponent [e] between -1074 and 971, the value being
    [m * 2^e]. *)
Definition round64 (q : Q) : float :=
  let n := Qnum q in
  let d := Z.pos (Qden q) in
  if n =? 0 then Fin 0
  else
    let a := Z.abs n in
    let e := Z.max (floor_log2 a d - 52) (-1074) in
    let m := if 0 <=? e then round_half_even a (d * 2 ^ e)
             else round_half_even (a * 2 ^ (- e)) d in
    if (971 <? e) || (e =? 971) && (m =? 2 ^ 53)
    then if n <? 0 then NInf else PInf
    else
      let s := Z.sgn n * m in
      Fin (Qred (if 0 <=? e then inject_Z (s * 2 ^ e)
                 else Qmake s (Z.to_pos (2 ^ (- e))))).
Arguments round64 : simpl never.

(** An integer as a float64 value. *)
Definition of_int (z : Z) : float := round64 (inject_Z z).

Definition fopp (x : float) : float :=
  match x with
  | Fin q => Fin (- q)
  | PInf => NInf
  | NInf => PInf
  | NaN => NaN
  end.

Definition fadd (x y : float) : float :=
  match x, y with
  | NaN, _ | _, NaN => NaN
  | Fin a, Fin b => round64 (a + b)
  | PInf, NInf | NInf, PInf => NaN
  | PInf, _ | _, PInf => PInf
  | NInf, _ | _, NInf => NInf
  end.

Definition fsub (x y : float) : float := fadd x (fopp y).

(** Sign of a finite value: [Lt], [Eq] or [Gt] with respect to zero. *)
Definition qsign (q : Q) : comparison := (q ?= 0)%Q.

Definition signed_inf (negative : bool) : float :=
  if negative then NInf else PInf.

Definition fmul (x y : float) : float :=
  match x, y with
  | NaN, _ | _, NaN => NaN
  | Fin a, Fin b => round64 (a * b)
  | Fin a, PInf | PInf, Fin a =>
      match qsign a with Eq => NaN | Lt => NInf | Gt => PInf end
  | Fin a, NInf | NInf, Fin a =>
      match qsign a with Eq => NaN | Lt => PInf | Gt => NInf end
  | PInf, PInf | NInf, NInf => PInf
  | PInf, NInf | NInf, PInf => NInf
  end.

(** numpy division: a finite value over zero gives a signed infinity
    (or nan for 0/0) and a warning, not an exception. *)
Definition fdiv (x y : float) : float :=
  match x, y with
  | NaN, _ | _, NaN => NaN
  | Fin a, Fin b =>
      match qsign b with
      | Eq => match qsign a with Eq => NaN | Lt => NInf | Gt => PInf end
      | _ => round64 (a / b)
      end
  | Fin _, _ => Fin 0
  | PInf, Fin b => match qsign b with Lt => NInf | _ => PInf end
  | NInf, Fin b => match qsign b with Lt => PInf | _ => NInf end
  | _, _ => NaN
  end.

(** [x == 0.0] and [x < 0.0]. *)
Definition is_zero (x : float) : bool :=
  match x with Fin q => Qeq_bool q 0 | _ => false end.

Definition is_negative (x : float) : bool :=
  match x with
  | Fin q => match qsign q with Lt => true | _ => false end
  | NInf => true
  | _ => false
  end.

(** *** Results and the state-and-exception monad *)

Inductive result (A : Type) : Type :=
  | Ok (a : A)
  | Raise (e : exn).
Arguments Ok {A} a.
Arguments Raise {A} e.

#[global] Instance result_ret : MRet result := fun A a => Ok a.
#[global] Instance result_fmap : FMap result := fun A B f m =>
  match m with
  | Ok a => Ok (f a)
  | Raise e => Raise e
  end.
#[global] Instance result_bind : MBind result := fun A B f m =>
  match m with
  | Ok a => f a
  | Raise e => Raise e
  end.

(** A method call on an object of type [S]: the outcome, and the object
    as the call left it. *)
Definition M (S A : Type) : Type := S -> result A * S.

#[global] Instance M_ret {S} : MRet (M S) := fun A a s => (Ok a, s).
#[global] Instance M_bind {S} : MBind (M S) := fun A B f m s =>
  match m s with
  | (Ok a, s') => f a s'
  | (Raise e, s') => (Raise e, s')
  end.

Definition raise {S A} (e : exn) : M S A := fun s => (Raise e, s).
Definition lift {S A} (r : result A) : M S A := fun s => (r, s).
Definition get {S} : M S S := fun s => (Ok s, s).
Definition put {S} (s : S) : M S unit := fun _ => (Ok tt, s).
Definition modify {S} (f : S -> S) : M S unit := fun s => (Ok tt, f s).

(** Run a method of a sub-object [T] stored inside [S]. *)
Definition zoom {S T A} (rd : S -> T) (wr : T -> S -> S) (m : M T A)
  : M S A :=
  fun s => let '(r, t) := m (rd s) in (r, wr t s).

(** *** numpy arrays *)

(** [np.arange(a, b)] on integers. *)
Definition arange (a b : Z) : list Z :=
  List.map (fun i => a + Z.of_nat i) (seq 0 (Z.to_nat (b - a))).

(** [np.empty(n, dtype=int)]: a fresh buffer of [n] cells whose
    contents are unspecified; a negative size raises [ValueError].  The
    cells are filled from [junk]. *)
Definition np_empty (junk : nat -> Z) (n : Z) : result (list Z) :=
  if n <? 0 then Raise ValueError
  else Ok (List.map junk (seq 0 (Z.to_nat n))).

(** Assignment of a one-dimensional array to a slice of [len] cells:
    the lengths must agree, except that a single value is broadcast. *)
Definition broadcast_to (len : nat) (src : list Z) : result (list Z) :=
  if Nat.eqb (List.length src) len then Ok src
  else match src with
       | [x] => Ok (repeat x len)
       | _ => Raise ValueError
       end.

(** [a[:n] = src] and [a[n:] = src] for [0 <= n]. *)
Definition set_prefix (a : list Z) (n : Z) (src : list Z) : result (list Z) :=
  let k := Z.to_nat n in
  v ← broadcast_to (List.length (take k a)) src;
  Ok (v ++ drop k a).

Definition set_suffix (a : list Z) (n : Z) (src : list Z) : result (list Z) :=
  let k := Z.to_nat n in
  v ← broadcast_to (List.length (drop k a)) src;
  Ok (take k a ++ v).

End Py.

Export Py.

(** ** The quantity collaborator *)

(** A physical quantity: a float64 value and a unit. *)
Record Quantity (U : Type) : Type :=
  mkQuantity { value_of : float; unit_of : U }.
Arguments mkQuantity {U} value_of unit_of.
Arguments value_of {U} _.
Arguments unit_of {U} _.

(** An array of float64 values sharing one unit. *)
Record QuantityArray (U : Type) : Type :=
  mkArray { values : list float; array_unit : U }.
Arguments mkArray {U} values array_unit.
Arguments values {U} _.
Arguments array_unit {U} _.

(** What the modelled code takes from astropy and from the helper
    module [csdfpy/_utils.py]; neither is part of the sources, so the
    operations are parameters of the development. *)
Class QuantityLib : Type := {
  Unit : Type;
  (** [unit ** -1], [u / v] and [u * v] *)
  unit_inverse : Unit -> Unit;
  unit_over : Unit -> Unit -> Unit;
  unit_times : Unit -> Unit -> Unit;
  (** [quantity.to(unit)] and [array.to(unit)] *)
  to : Quantity Unit -> Unit -> result (Quantity Unit);
  array_to : QuantityArray Unit -> Unit -> result (QuantityArray Unit);
  (** [unit._ppm] *)
  _ppm : Unit;
  (** [_utils._assign_and_check_unit_consistency(element, unit)] *)
  _assign_and_check_unit_consistency :
    val -> option Unit -> result (Quantity Unit);
  (** [_utils._check_value_object(element, unit)] *)
  _check_value_object : val -> Unit -> result (Quantity Unit);
  (** [_utils._check_quantity(element, unit)] *)
  _check_quantity : val -> Unit -> result val;
  (** [_utils._check_and_assign_bool(element)] *)
  _check_and_assign_bool : val -> result bool;
}.

Abbreviation Qty := (Quantity Unit).

(** The cells of a buffer obtained from [np.empty]. *)
Class Numpy : Type := { uninitialised : nat -> Z }.

(** [index * quantity]: an integer (or float64) index array times a
    scalar quantity. *)
Definition index_times {U} (index : list Z) (q : Quantity U)
  : QuantityArray U :=
  mkArray (List.map (fun j => fmul (of_int j) (value_of q)) index) (unit_of q).

(** [array.size] *)
Definition array_size {U} (X : QuantityArray U) : Z :=
  Z.of_nat (List.length (values X)).

(** [np.inf * unit] *)
Definition inf_times {U} (u : U) : Quantity U := mkQuantity inf u.

Section Arithmetic.
Context `{QuantityLib}.

(** [array - quantity], [array + quantity] and [quantity + quantity]:
    the right operand is expressed in the unit of the left one first. *)
Definition array_minus (X : QuantityArray Unit) (q : Qty)
  : result (QuantityArray Unit) :=
  c ← to q (array_unit X);
  Ok (mkArray (List.map (fun x => fsub x (value_of c)) (values X))
        (array_unit X)).

Definition array_plus (X : QuantityArray Unit) (q : Qty)
  : result (QuantityArray Unit) :=
  c ← to q (array_unit X);
  Ok (mkArray (List.map (fun x => fadd x (value_of c)) (values X))
        (array_unit X)).

Definition quantity_plus (a b : Qty) : result Qty :=
  c ← to b (unit_of a);
  Ok (mkQuantity (fadd (value_of a) (value_of c)) (unit_of a)).

(** [array / quantity] and [array * quantity]: no conversion, the units
    combine. *)
Definition array_over (X : QuantityArray Unit) (q : Qty)
  : QuantityArray Unit :=
  mkArray (List.map (fun x => fdiv x (value_of q)) (values X))
    (unit_over (array_unit X) (unit_of q)).

Definition array_times (X : QuantityArray Unit) (q : Qty)
  : QuantityArray Unit :=
  mkArray (List.map (fun x => fmul x (value_of q)) (values X))
    (unit_times (array_unit X) (unit_of q)).

(** *** Objects with named slots

    The classes behind the facade of [ControlledVariable.py] are not
    among the sources, and [nonLinearQuantitative.py] guards its slots
    by name: such objects are kept as maps from slot names to what the
    slots hold. *)
Inductive attr : Type :=
  | AVal (v : val)
  | AQuantity (q : Qty)
  | AArray (a : QuantityArray Unit)
  | AUnit (u : Unit).

(** What [warnings.warn] and [print] leave behind: the format string
    and its arguments. *)
Inductive event : Type :=
  | Warned (fmt : string) (args : list attr)
  | Printed (fmt : string) (args : list attr).

(** An object together with the messages issued so far. *)
Record world (S : Type) : Type := mkWorld { this : S; events : list event }.

End Arithmetic.
Arguments mkWorld {_ S} this events.
Arguments this {_ S} _.
Arguments events {_ S} _.

(** More of what the sources import from [csdfpy/unit.py] and
    [csdfpy/_utils.py]. *)
Class UnitHelpers `{QuantityLib} : Type := {
  (** [unit.value_object_format(quantity)] *)
  value_object_format : Qty -> str;
  (** [unit.string_to_unit(string)] *)
  string_to_unit : str -> result Unit;
  (** [_utils._check_unit_consistency(quantity, unit)] *)
  _check_unit_consistency : Qty -> Unit -> result Qty;
}.

(** ** [csdfpy/_independent_variables.py] *)

Module IndependentVariables.
Section Classes.
Context `{QuantityLib} `{Numpy}.


(** *** [class BaseIndependentVariable]

    One field per slot.  [_equivalencies] is not assigned by the
    constructor: [None] stands for the unassigned slot. *)
Record BaseIndependentVariable : Type := mkBase {
  _reference_offset : Qty;
  _origin_offset : Qty;
  _quantity : val;
  _period : Qty;
  _label : str;
  _equivalencies : option val;
  _unit : Unit;
}.

Definition with_reference_offset (v : Qty) (self : BaseIndependentVariable) :=
  mkBase v (_origin_offset self) (_quantity self) (_period self)
         (_label self) (_equivalencies self) (_unit self).
Definition with_origin_offset (v : Qty) (self : BaseIndependentVariable) :=
  mkBase (_reference_offset self) v (_quantity self) (_period self)
         (_label self) (_equivalencies self) (_unit self).
Definition with_quantity (v : val) (self : BaseIndependentVariable) :=
  mkBase (_reference_offset self) (_origin_offset self) v (_period self)
         (_label self) (_equivalencies self) (_unit self).
Definition with_period (v : Qty) (self : BaseIndependentVariable) :=
  mkBase (_reference_offset self) (_origin_offset self) (_quantity self) v
         (_label self) (_equivalencies self) (_unit self).
Definition with_label (v : str) (self : BaseIndependentVariable) :=
  mkBase (_reference_offset self) (_origin_offset self) (_quantity self)
         (_period self) v (_equivalencies self) (_unit self).
Definition with_unit (v : Unit) (self : BaseIndependentVariable) :=
  mkBase (_reference_offset self) (_origin_offset self) (_quantity self)
         (_period self) (_label self) (_equivalencies self) v.

(** [label.setter], as a check on the assigned value. *)
Definition check_label (label : val) : result str :=
  match isinstance_str label with
  | Some s => Ok s
  | None => Raise TypeError
  end.

(** [_set_parameters], as run by the constructors on a fresh object:
    the result is the object with its slots assigned. *)
Definition _set_parameters
    (reference_offset origin_offset quantity period label : val)
    (unit : Unit) : result BaseIndependentVariable :=
  (* reference offset *)
  ro ← _check_value_object reference_offset unit;
  (* origin offset *)
  oo ← _check_value_object origin_offset unit;
  (* period *)
  p ← _check_value_object period unit;
  let p := if is_zero (value_of p) then inf_times (unit_of p) else p in
  (* quantity *)
  q ← _check_quantity quantity unit;
  (* label *)
  l ← check_label label;
  Ok (mkBase ro oo q p l None unit).

(** [BaseIndependentVariable.__init__], also the constructor of
    [ReciprocalVariable]. *)
Definition BaseIndependentVariable_init := _set_parameters.

(** The attributes. *)
Definition reference_offset (self : BaseIndependentVariable) : Qty :=
  _reference_offset self.

Definition reference_offset_setter (value : val)
  : M BaseIndependentVariable unit :=
  match isinstance_str value with
  | None => raise TypeError
  | Some _ =>
      self ← get;
      _value ← lift (_assign_and_check_unit_consistency value
                       (Some (_unit self)));
      modify (with_reference_offset _value)
  end.

Definition origin_offset (self : BaseIndependentVariable) : Qty :=
  _origin_offset self.

Definition origin_offset_setter (value : val)
  : M BaseIndependentVariable unit :=
  match isinstance_str value with
  | None => raise TypeError
  | Some _ =>
      self ← get;
      _value ← lift (_assign_and_check_unit_consistency value
                       (Some (_unit self)));
      modify (with_origin_offset _value)
  end.

Definition period (self : BaseIndependentVariable) : Qty := _period self.

(** The sentinels of [period.setter]; the last one is U+221E. *)
Definition lst : list str :=
  [py "inf"; py "Inf"; py "infinity"; py "Infinity"; [8734%N]].

(** [value.strip().split()[0]] *)
Definition first_token (value : str) : result str :=
  match split (strip value) with
  | tok :: _ => Ok tok
  | [] => Raise IndexError
  end.

Definition period_setter (value : val) : M BaseIndependentVariable unit :=
  match isinstance_str value with
  | None => raise TypeError
  | Some s =>
      tok ← lift (first_token s);
      self ← get;
      if in_list tok lst
      then modify (with_period (inf_times (_unit self)))
      else
        _value ← lift (_check_value_object value (_unit self));
        modify (with_period _value)
  end.

Definition quantity (self : BaseIndependentVariable) : val := _quantity self.

Definition quantity_setter (value : val) : M BaseIndependentVariable unit :=
  raise NotImplementedError.

Definition label (self : BaseIndependentVariable) : str := _label self.

Definition label_setter (label : val) : M BaseIndependentVariable unit :=
  l ← lift (check_label label);
  modify (with_label l).

(** *** [class DimensionWithLinearSpacing(BaseIndependentVariable)]

    [base] holds the inherited slots, [reciprocal] the owned
    [ReciprocalVariable].  The two [_reciprocal_*] slots are declared
    but never assigned. *)
Record DimensionWithLinearSpacing : Type := mkLinear {
  base : BaseIndependentVariable;
  _number_of_points : Z;
  _increment : Qty;
  _fft_output_order : bool;
  reciprocal : BaseIndependentVariable;
  _reciprocal_number_of_points : option val;
  _reciprocal_increment : option val;
  _coordinates : QuantityArray Unit;
}.

Definition with_base (v : BaseIndependentVariable)
    (self : DimensionWithLinearSpacing) :=
  mkLinear v (_number_of_points self) (_increment self)
           (_fft_output_order self) (reciprocal self)
           (_reciprocal_number_of_points self) (_reciprocal_increment self)
           (_coordinates self).
Definition with_reciprocal (v : BaseIndependentVariable)
    (self : DimensionWithLinearSpacing) :=
  mkLinear (base self) (_number_of_points self) (_increment self)
           (_fft_output_order self) v
           (_reciprocal_number_of_points self) (_reciprocal_increment self)
           (_coordinates self).
Definition with_increment (v : Qty) (self : DimensionWithLinearSpacing) :=
  mkLinear (base self) (_number_of_points self) v
           (_fft_output_order self) (reciprocal self)
           (_reciprocal_number_of_points self) (_reciprocal_increment self)
           (_coordinates self).
Definition with_fft_output_order (v : bool)
    (self : DimensionWithLinearSpacing) :=
  mkLinear (base self) (_number_of_points self) (_increment self)
           v (reciprocal self)
           (_reciprocal_number_of_points self) (_reciprocal_increment self)
           (_coordinates self).
Definition with_coordinates (v : QuantityArray Unit)
    (self : DimensionWithLinearSpacing) :=
  mkLinear (base self) (_number_of_points self) (_increment self)
           (_fft_output_order self) (reciprocal self)
           (_reciprocal_number_of_points self) (_reciprocal_increment self)
           v.

(** [self.x, self.reciprocal.x = self.reciprocal.x, self.x]: the right
    side is evaluated first, then the two targets are assigned. *)
Definition exchange {A} (rd : BaseIndependentVariable -> A)
    (wr : A -> BaseIndependentVariable -> BaseIndependentVariable)
  : M DimensionWithLinearSpacing unit :=
  modify (fun self =>
    let rhs := (rd (reciprocal self), rd (base self)) in
    let self := with_base (wr (fst rhs) (base self)) self in
    with_reciprocal (wr (snd rhs) (reciprocal self)) self).

Definition _swap : M DimensionWithLinearSpacing unit :=
  (* reference offset *)
  exchange _reference_offset with_reference_offset;;
  (* origin offset *)
  exchange _origin_offset with_origin_offset;;
  (* period *)
  exchange _period with_period;;
  (* quantity *)
  exchange _quantity with_quantity;;
  (* label *)
  exchange _label with_label;;
  (* unit *)
  exchange _unit with_unit.

(** The index array of the [if self._fft_output_order:] branch. *)
Definition fft_index (N : Z) : result (list Z) :=
  _index ← np_empty uninitialised N;
  let n := (N - 1) / 2 + 1 in
  let p1 := arange 0 n in
  _index ← set_prefix _index n p1;
  let p2 := arange (- (N / 2)) 0 in
  _index ← set_suffix _index n p2;
  Ok _index.

Definition _get_coordinates : M DimensionWithLinearSpacing unit :=
  self ← get;
  let unit := _unit (base self) in
  let N := _number_of_points self in
  increment ← lift (to (_increment self) unit);
  let _index := arange 0 N in
  _index ← (if _fft_output_order self then lift (fft_index N)
            else mret _index);
  let _value := index_times _index increment in
  modify (with_coordinates _value).

(** [DimensionWithLinearSpacing.__init__] *)
Definition DimensionWithLinearSpacing_init
    (number_of_points : Z)
    (increment reference_offset origin_offset quantity period label
       fft_output_order
       reciprocal_reference_offset reciprocal_origin_offset
       reciprocal_quantity reciprocal_label reciprocal_period : val)
  : result DimensionWithLinearSpacing :=
  (* increment *)
  inc ← _assign_and_check_unit_consistency increment None;
  (* fft_ouput_order *)
  fft ← _check_and_assign_bool fft_output_order;
  let unit := unit_of inc in
  b ← _set_parameters reference_offset origin_offset quantity period label
        unit;
  (* create a reciprocal dimension *)
  let reciprocal_unit := unit_inverse unit in
  r ← BaseIndependentVariable_init
        reciprocal_reference_offset reciprocal_origin_offset
        reciprocal_quantity reciprocal_period reciprocal_label
        reciprocal_unit;
  let self := mkLinear b number_of_points inc fft r None None
                (mkArray [] unit) in
  match _get_coordinates self with
  | (Ok _, self) => Ok self
  | (Raise e, _) => Raise e
  end.

(** The attributes. *)
Definition number_of_points (self : DimensionWithLinearSpacing) : Z :=
  _number_of_points self.

Definition increment (self : DimensionWithLinearSpacing) : Qty :=
  _increment self.

Definition increment_setter (value : val)
  : M DimensionWithLinearSpacing unit :=
  match isinstance_str value with
  | None => raise TypeError
  | Some _ =>
      self ← get;
      _value ← lift (_assign_and_check_unit_consistency value
                       (Some (_unit (base self))));
      if is_negative (value_of _value) then raise ValueError
      else
        modify (with_increment _value);;
        _get_coordinates
  end.

Definition FFT_output_order (self : DimensionWithLinearSpacing) : bool :=
  _fft_output_order self.

Definition FFT_output_order_setter (value : val)
  : M DimensionWithLinearSpacing unit :=
  match isinstance_bool value with
  | None => raise TypeError
  | Some b =>
      modify (with_fft_output_order b);;
      _get_coordinates
  end.

(** The inherited setters act on the inherited slots. *)
Definition inherited {A} (m : M BaseIndependentVariable A)
  : M DimensionWithLinearSpacing A :=
  zoom base with_base m.

(** Modelled from the spec: the read accessor [coordinates] of a linear
    dimension.  The class that serves it (the facade over
    [DimensionWithLinearSpacing]) is not among the sources, which only
    hold the cache [_coordinates = index * increment].  The spec gives
    "the true reference-coordinate formula is X = j*m − reference_offset":
    the reference offset is subtracted from every cell of the cache. *)
Definition coordinates (self : DimensionWithLinearSpacing)
  : result (QuantityArray Unit) :=
  array_minus (_coordinates self) (_reference_offset (base self)).

(** The index array the cache is computed from. *)
Definition index_array (self : DimensionWithLinearSpacing) : list Z :=
  let N := _number_of_points self in
  if _fft_output_order self
  then arange 0 ((N - 1) / 2 + 1) ++ arange (- (N / 2)) 0
  else arange 0 N.

(** The index sequence of the FFT order as the specification words it:
    "[0, 1, ..., n-1, -(N-⌊N/2⌋), ..., -1] with n = ⌊(N-1)/2⌋ + 1". *)
Definition spec_fft_index (N : Z) : list Z :=
  let n := (N - 1) / 2 + 1 in
  arange 0 n ++ arange (- (N - N / 2)) 0.

(** *** The remaining methods of [BaseIndependentVariable] and of
    [DimensionWithLinearSpacing] *)

Context {unit_helpers : UnitHelpers}.

Definition with_equivalencies (v : option val)
    (self : BaseIndependentVariable) :=
  mkBase (_reference_offset self) (_origin_offset self) (_quantity self)
         (_period self) (_label self) v (_unit self).

(** [self._quantity not in [None, "unknown", "dimensionless"]] *)
Definition named_quantity (quantity : val) : bool :=
  match quantity with
  | VNone => false
  | VStr s => negb (str_eqb s (py "unknown")
                    || str_eqb s (py "dimensionless"))
  | _ => true
  end.

(** [value not in [0.0, np.inf]] *)
Definition finite_period (x : float) : bool :=
  match x with
  | Fin q => negb (Qeq_bool q 0)
  | PInf => false
  | _ => true
  end.

(** [string.strip() != ""] *)
Definition not_blank (s : str) : bool :=
  match strip s with [] => false | _ => true end.

(** [_get_quantitative_dictionary] *)
Definition _get_quantitative_dictionary (self : BaseIndependentVariable)
  : gmap string val :=
  let dictionary : gmap string val := ∅ in
  let dictionary :=
    if negb (is_zero (value_of (_reference_offset self)))
    then <["reference_offset" :=
            VStr (value_object_format (_reference_offset self))]> dictionary
    else dictionary in
  let dictionary :=
    if negb (is_zero (value_of (_origin_offset self)))
    then <["origin_offset" :=
            VStr (value_object_format (_origin_offset self))]> dictionary
    else dictionary in
  let dictionary :=
    if named_quantity (_quantity self)
    then <["quantity" := _quantity self]> dictionary
    else dictionary in
  let dictionary :=
    if finite_period (value_of (_period self))
    then <["period" := VStr (value_object_format (_period self))]> dictionary
    else dictionary in
  let dictionary :=
    if not_blank (label self)
    then <["label" := VStr (label self)]> dictionary
    else dictionary in
  dictionary.

(** [_is_quantitative] *)
Definition _is_quantitative (self : BaseIndependentVariable) : bool := true.

(** [_to(unit, equivalencies)] *)
Definition _to (unit : val) (equivalencies : val)
  : M BaseIndependentVariable Datatypes.unit :=
  match isinstance_str unit with
  | None => raise TypeError
  | Some s =>
      self ← get;
      u ← lift (string_to_unit s);
      q ← lift (_check_unit_consistency (mkQuantity (Fin 1) u) (_unit self));
      modify (with_unit (unit_of q));;
      modify (with_equivalencies (Some equivalencies))
  end.

(** [DimensionWithLinearSpacing._get_python_dictionary];
    [dictionary.update(other)] lets the entries of [other] win. *)
Definition _get_python_dictionary (self : DimensionWithLinearSpacing)
  : gmap string val :=
  let dictionary : gmap string val := ∅ in
  let dictionary := <["type" := VStr (py "linear_spacing")]> dictionary in
  let dictionary :=
    <["number_of_points" := VInt (_number_of_points self)]> dictionary in
  let dictionary :=
    <["increment" := VStr (value_object_format (increment self))]>
      dictionary in
  let dictionary := _get_quantitative_dictionary (base self) ∪ dictionary in
  let dictionary :=
    if FFT_output_order self
    then <["FFT_output_order" := VBool true]> dictionary
    else dictionary in
  let reciprocal_dictionary :=
    _get_quantitative_dictionary (reciprocal self) in
  if Nat.eqb (size reciprocal_dictionary) 0
  then dictionary
  else <["reciprocal" := VDict reciprocal_dictionary]> dictionary.

End Classes.

(** *** [class DimensionWithArbitrarySpacing(BaseIndependentVariable)]

    [base] holds the inherited slots (the class declares [_unit] once
    more, there is still one slot of that name per object). *)
Module ArbitrarySpacing.
Section Classes.
Context `{QuantityLib} {unit_helpers : UnitHelpers}.

Record DimensionWithArbitrarySpacing : Type := mkArbitrary {
  base : BaseIndependentVariable;
  reciprocal : BaseIndependentVariable;
  _number_of_points : Z;
  _values : list val;
  _coordinates : QuantityArray Unit;
}.

(** [_get_coordinates(values)]: the list comprehension runs to its end
    before the three slots are written. *)
Definition _get_coordinates (values : list val)
  : M DimensionWithArbitrarySpacing unit :=
  self ← get;
  let _unit := _unit (base self) in
  _value ← lift (mapM (M := result)
                   (fun item =>
                      q ← _assign_and_check_unit_consistency item
                            (Some _unit);
                      c ← to q _unit;
                      Ok (value_of c))
                   values);
  let _value := mkArray _value _unit in
  modify (fun self =>
    mkArbitrary (base self) (reciprocal self)
      (array_size _value) values _value).

(** [DimensionWithArbitrarySpacing.__init__]; [_values] is a list.  The
    three slots written by [_get_coordinates] are unassigned until it
    runs; the object is only returned once they are. *)
Definition DimensionWithArbitrarySpacing_init
    (_values : list val)
    (reference_offset origin_offset quantity period label
       reciprocal_reference_offset reciprocal_origin_offset
       reciprocal_quantity reciprocal_label reciprocal_period : val)
  : result DimensionWithArbitrarySpacing :=
  (* unit *)
  first ← match _values with
           | item :: _ => Ok item
           | [] => Raise IndexError
           end;
  q ← _assign_and_check_unit_consistency first None;
  let unit := unit_of q in
  b ← _set_parameters reference_offset origin_offset quantity period label
        unit;
  (* reciprocal dimension attributes *)
  let reciprocal_unit := unit_inverse unit in
  r ← BaseIndependentVariable_init
        reciprocal_reference_offset reciprocal_origin_offset
        reciprocal_quantity reciprocal_period reciprocal_label
        reciprocal_unit;
  (* coordinates *)
  let self := mkArbitrary b r 0 [] (mkArray [] unit) in
  match _get_coordinates _values self with
  | (Ok _, self) => Ok self
  | (Raise e, _) => Raise e
  end.

Definition values (self : DimensionWithArbitrarySpacing) : list val :=
  _values self.

Definition values_setter (array : list val)
  : M DimensionWithArbitrarySpacing unit :=
  _get_coordinates array.

Definition _get_python_dictionary (self : DimensionWithArbitrarySpacing)
  : gmap string val :=
  let dictionary : gmap string val := ∅ in
  let dictionary :=
    <["type" := VStr (py "arbitrary_spacing")]> dictionary in
  let dictionary := <["values" := VList (_values self)]> dictionary in
  let dictionary := _get_quantitative_dictionary (base self) ∪ dictionary in
  let reciprocal_dictionary :=
    _get_quantitative_dictionary (reciprocal self) in
  if Nat.eqb (size reciprocal_dictionary) 0
  then dictionary
  else <["reciprocal" := VDict reciprocal_dictionary]> dictionary.

End Classes.
End ArbitrarySpacing.

(** *** [class DimensionWithLabels]

    The constructor stores [_label] and [_reverse] as given, so the two
    slots hold arbitrary objects.  [_coordinates] holds the array made
    of [_values] by [np.asarray], kept as the object it was made from. *)
Module Labels.
Section Classes.
Context `{QuantityLib}.

Record DimensionWithLabels : Type := mkLabels {
  _number_of_points : Z;
  _coordinates : val;
  _values : val;
  _label : val;
  _reverse : val;
}.

Definition _get_coordinates (values : val) : M DimensionWithLabels unit :=
  modify (fun self =>
    mkLabels (_number_of_points self) values (_values self)
             (_label self) (_reverse self));;
  modify (fun self =>
    mkLabels (_number_of_points self) (_coordinates self) values
             (_label self) (_reverse self));;
  match len values with
  | Some n =>
      modify (fun self =>
        mkLabels n (_coordinates self) (_values self)
                 (_label self) (_reverse self))
  | None => raise TypeError
  end.

(** [DimensionWithLabels.__init__]: [_get_coordinates] assigns the
    first three slots of the fresh object. *)
Definition DimensionWithLabels_init (values label reverse : val)
  : result DimensionWithLabels :=
  match len values with
  | Some n => Ok (mkLabels n values values label reverse)
  | None => Raise TypeError
  end.

Definition label (self : DimensionWithLabels) : val := _label self.

Definition label_setter (label : val) : M DimensionWithLabels unit :=
  match isinstance_str label with
  | None => raise TypeError
  | Some _ =>
      modify (fun self =>
        mkLabels (_number_of_points self) (_coordinates self)
                 (_values self) label (_reverse self))
  end.

Definition reverse (self : DimensionWithLabels) : val := _reverse self.

Definition reverse_setter (value : val) : M DimensionWithLabels unit :=
  match isinstance_bool value with
  | None => raise TypeError
  | Some _ =>
      _value ← lift (_check_and_assign_bool value);
      modify (fun self =>
        mkLabels (_number_of_points self) (_coordinates self)
                 (_values self) (_label self) (VBool _value))
  end.

Definition _is_quantitative (self : DimensionWithLabels) : bool := false.

Definition values (self : DimensionWithLabels) : val := _values self.

Definition values_setter (values : val) : M DimensionWithLabels unit :=
  _get_coordinates values.

End Classes.
End Labels.

End IndependentVariables.

(** ** [csdfpy/ControlledVariable.py] *)

Module Facade.
Section Classes.
Context `{QuantityLib}.

Definition _quantitative_variable_types : list string :=
  ["Linearly sampled grid controlled variable";
   "Arbitrarily sampled grid controlled variable"].

(** [_quantitative_variable_types[0]] *)
Definition _quantitative_variable_types_0 : string :=
  "Linearly sampled grid controlled variable".

(** [dictionary[key]] *)
Definition getitem (dictionary : gmap string val) (key : string)
  : result val :=
  match dictionary !! key with
  | Some v => Ok v
  | None => Raise KeyError
  end.

Definition _check_non_quantitative (dictionary : gmap string val)
  : result bool :=
  let is_false := false in
  nq ← getitem dictionary "non_quantitative";
  if truthy nq
  then
    let is_false := true in
    v ← getitem dictionary "values";
    if is_None v
    then Raise (Exception
           "'values' key is required for non-quantitative dimension.")
    else Ok is_false
  else Ok is_false.

(** [a is None and b is None and c is None], evaluated left to right. *)
Definition all_three_None (dictionary : gmap string val) : result bool :=
  n ← getitem dictionary "number_of_points";
  if is_None n
  then
    si ← getitem dictionary "sampling_interval";
    if is_None si
    then v ← getitem dictionary "values"; Ok (is_None v)
    else Ok false
  else Ok false.

Definition _check_quantitative (dictionary : gmap string val)
  : result bool :=
  nq ← _check_non_quantitative dictionary;
  if negb (nq : bool)
  then
    missing ← all_three_None dictionary;
    if (missing : bool)
    then Raise (Exception
           "either 'number_of_points, sampling_interval' or 'values' key is required.")
    else Ok true
  else Ok false.

Definition _check_quantitative_linear (dictionary : gmap string val)
  : result bool :=
  q ← _check_quantitative dictionary;
  if (q : bool)
  then
    n ← getitem dictionary "number_of_points";
    if negb (is_None n)
    then si ← getitem dictionary "sampling_interval"; Ok (negb (is_None si))
    else Ok false
  else Ok false.

Definition _check_quantitative_arbitrary (dictionary : gmap string val)
  : result bool :=
  q ← _check_quantitative dictionary;
  if (q : bool)
  then v ← getitem dictionary "values"; Ok (negb (is_None v))
  else Ok false.

(** The object behind the facade: its [variable_type] and its slots. *)
Record Gcv : Type := mkGcv {
  variable_type : string;
  slots : gmap string attr;
}.

(** The three classes behind the facade ([_LinearlySampledDimension],
    [_ArbitrarilySampledDimension], [_NonQuantitativeDimension]) are not
    among the sources: their constructors (which receive entries of
    [dictionary]), the properties the facade reads and the method it
    calls are parameters. *)
Class GcvClasses : Type := {
  _NonQuantitativeDimension : gmap string val -> result Gcv;
  _ArbitrarilySampledDimension : gmap string val -> result Gcv;
  _LinearlySampledDimension : gmap string val -> result Gcv;
  gcv_coordinates : Gcv -> result (QuantityArray Unit);
  gcv_reciprocal_coordinates : Gcv -> result (QuantityArray Unit);
  gcv_unit : Gcv -> result Unit;
  gcv_reciprocal_unit : Gcv -> result Unit;
  gcv_get_coordinates : M Gcv unit;
}.
Context `{GcvClasses}.

(** [set_attribute(name, value)] is the plain slot write
    [super().__setattr__(name, value)], as the class of
    [csdfpy/nonQuantitative.py] defines it. *)
Definition set_attribute (name : string) (value : attr) : M Gcv unit :=
  modify (fun g => mkGcv (variable_type g) (<[name := value]> (slots g))).

(** Reading a slot; an absent slot raises [AttributeError]. *)
Definition getattr (g : Gcv) (name : string) : result attr :=
  match slots g !! name with
  | Some a => Ok a
  | None => Raise AttributeError
  end.

Definition as_quantity (a : attr) : result Qty :=
  match a with AQuantity q => Ok q | _ => Raise AttributeError end.

(** [class ControlledVariable], with [__slots__ = ['gcv']]. *)
Record ControlledVariable : Type := mkCV { gcv : Gcv }.

(** A method of the facade runs on the facade object and may issue
    warnings. *)
Definition Method (A : Type) : Type := M (world ControlledVariable) A.

Definition self_gcv : Method Gcv :=
  fun w => (Ok (gcv (this w)), w).

(** [self.gcv.<method>(...)] *)
Definition on_gcv {A} (m : M Gcv A) : Method A :=
  zoom (fun w => gcv (this w)) (fun g w => mkWorld (mkCV g) (events w)) m.

Definition warn (fmt : string) (args : list attr) : Method unit :=
  modify (fun w => mkWorld (this w) (events w ++ [Warned fmt args])).

(** The default configuration of [__init__]. *)
Definition reciprocal_defaults : gmap string val :=
  list_to_map
    [("sampling_interval", VNone); ("reference_offset", VNone);
     ("origin_offset", VNone); ("made_dimensionless", VBool false);
     ("reverse", VBool false); ("period", VNone); ("quantity", VNone);
     ("label", VStr [])].

Definition defaults : gmap string val :=
  list_to_map
    [("sampling_type", VStr (py "grid")); ("non_quantitative", VBool false);
     ("number_of_points", VNone); ("sampling_interval", VNone);
     ("values", VNone); ("reference_offset", VNone);
     ("origin_offset", VNone); ("made_dimensionless", VBool false);
     ("reverse", VBool false); ("fft_output_order", VBool false);
     ("period", VNone); ("quantity", VNone); ("label", VStr []);
     ("reciprocal", VDict reciprocal_defaults)].

(** The loop over [input_keys]: [input_dict] is what
    the helper [_get_dictionary] returned. *)
Definition nested (dictionary : gmap string val) (key : string)
  : gmap string val :=
  match dictionary !! key with Some (VDict d) => d | _ => ∅ end.

Definition update_key (input_subkeys : gmap string val)
    (key : string) (v : val) (dictionary : gmap string val)
  : gmap string val :=
  match defaults !! key with
  | Some _ =>
      if String.eqb key "reciprocal"
      then
        <[key := VDict (map_fold (fun subkey sv d => <[subkey := sv]> d)
                          (nested dictionary key) input_subkeys)]> dictionary
      else <[key := v]> dictionary
  | None => dictionary
  end.

Definition update_defaults (input_dict : gmap string val)
  : result (gmap string val) :=
  input_subkeys ← match input_dict !! "reciprocal" with
                   | Some (VDict d) => Ok d
                   | Some _ => Raise AttributeError
                   | None => Ok ∅
                   end;
  Ok (map_fold (update_key input_subkeys) defaults input_dict).

(** [ControlledVariable.__init__].  [_gcv_object] is a local variable
    that is bound only if one of the three [if] statements runs its
    body; reading it unbound raises [UnboundLocalError]. *)
Definition ControlledVariable_init (input_dict : gmap string val)
  : result ControlledVariable :=
  dictionary ← update_defaults input_dict;
  let _gcv_object : option Gcv := None in
  c ← _check_non_quantitative dictionary;
  _gcv_object ← (if (c : bool)
                 then Some <$> _NonQuantitativeDimension dictionary
                 else Ok _gcv_object);
  c ← _check_quantitative_arbitrary dictionary;
  _gcv_object ← (if (c : bool)
                 then Some <$> _ArbitrarilySampledDimension dictionary
                 else Ok _gcv_object);
  c ← _check_quantitative_linear dictionary;
  _gcv_object ← (if (c : bool)
                 then Some <$> _LinearlySampledDimension dictionary
                 else Ok _gcv_object);
  match _gcv_object with
  | Some g => Ok (mkCV g)
  | None => Raise UnboundLocalError
  end.

(** [self.variable_type in _quantitative_variable_types] *)
Definition is_quantitative_type (self : ControlledVariable) : bool :=
  bool_decide (variable_type (gcv self) ∈ _quantitative_variable_types).

(** The derived attributes. *)
Definition coordinates (self : ControlledVariable)
  : result (QuantityArray Unit) :=
  gcv_coordinates (gcv self).

Definition absolute_coordinates (self : ControlledVariable)
  : result (QuantityArray Unit) :=
  if is_quantitative_type self
  then
    X ← gcv_coordinates (gcv self);
    oo ← getattr (gcv self) "_origin_offset" ≫= as_quantity;
    u ← gcv_unit (gcv self);
    oo ← to oo u;
    array_plus X oo
  else Raise AttributeError.

Definition reciprocal_coordinates (self : ControlledVariable)
  : result (QuantityArray Unit) :=
  if in_str (variable_type (gcv self)) _quantitative_variable_types_0
  then gcv_reciprocal_coordinates (gcv self)
  else Raise AttributeError.

Definition reciprocal_reference_offset (self : ControlledVariable)
  : result attr :=
  if is_quantitative_type self
  then getattr (gcv self) "_reciprocal_reference_offset"
  else Raise AttributeError.

Definition reciprocal_origin_offset (self : ControlledVariable)
  : result attr :=
  if is_quantitative_type self
  then getattr (gcv self) "_reciprocal_origin_offset"
  else Raise AttributeError.

(** [number_of_points] *)
Definition number_of_points (self : ControlledVariable) : result attr :=
  getattr (gcv self) "_number_of_points".

(** The stored count as an integer, for [value > self.number_of_points]. *)
Definition as_int (a : attr) : result Z :=
  match a with
  | AVal v =>
      match isinstance_int v with
      | Some z => Ok z
      | None => Raise TypeError
      end
  | _ => Raise TypeError
  end.

Definition number_of_points_setter (value : val) : Method unit :=
  match isinstance_int value with
  | None => raise TypeError
  | Some v =>
      if v <=? 0 then raise ValueError
      else
        g ← self_gcv;
        if negb (String.eqb (variable_type g) _quantitative_variable_types_0)
        then
          n ← lift (number_of_points (mkCV g) ≫= as_int);
          if v >? n then raise ValueError
          else
            (if v <? n
             then warn "The number of controlled variable coordinates, {0}, are truncated to {1}."
                    [AVal (VInt n); AVal value]
             else mret tt);;
            on_gcv (set_attribute "_number_of_points" (AVal value))
        else
          on_gcv (set_attribute "_number_of_points" (AVal value));;
          on_gcv gcv_get_coordinates
  end.

(** [values] *)
Definition values_getter (self : ControlledVariable) : result attr :=
  if String.eqb (variable_type (gcv self)) _quantitative_variable_types_0
  then Raise AttributeError
  else getattr (gcv self) "_values".

(** [period] *)
Definition period (self : ControlledVariable) : result attr :=
  if is_quantitative_type self
  then getattr (gcv self) "_period"
  else Raise AttributeError.

(** The setter repeats the sentinel list and the test of
    [BaseIndependentVariable.period]. *)
Definition period_setter (value : val) : Method unit :=
  g ← self_gcv;
  if is_quantitative_type (mkCV g)
  then
    match isinstance_str value with
    | None => raise TypeError
    | Some s =>
        tok ← lift (IndependentVariables.first_token s);
        if in_list tok IndependentVariables.lst
        then
          u ← lift (gcv_unit g);
          on_gcv (set_attribute "_period" (AQuantity (inf_times u)))
        else
          u ← lift (gcv_unit g);
          q ← lift (_check_value_object value u);
          on_gcv (set_attribute "_period" (AQuantity q))
    end
  else raise AttributeError.

(** *** The remaining attributes and methods *)

Context {unit_helpers : UnitHelpers}.

(** [reciprocal_absolute_coordinates] has no test of the variable
    type. *)
Definition reciprocal_absolute_coordinates (self : ControlledVariable)
  : result (QuantityArray Unit) :=
  X ← gcv_reciprocal_coordinates (gcv self);
  oo ← getattr (gcv self) "_reciprocal_origin_offset" ≫= as_quantity;
  u ← gcv_reciprocal_unit (gcv self);
  oo ← to oo u;
  array_plus X oo.

(** The four offsets share one pattern: a guarded slot read, and a
    guarded slot write of the checked string. *)
Definition reference_offset (self : ControlledVariable) : result attr :=
  if is_quantitative_type self
  then getattr (gcv self) "_reference_offset"
  else Raise AttributeError.

Definition reference_offset_setter (value : val) : Method unit :=
  g ← self_gcv;
  if is_quantitative_type (mkCV g)
  then
    match isinstance_str value with
    | None => raise TypeError
    | Some _ =>
        u ← lift (gcv_unit g);
        _value ← lift (_assign_and_check_unit_consistency value (Some u));
        on_gcv (set_attribute "_reference_offset" (AQuantity _value))
    end
  else raise AttributeError.

Definition reciprocal_reference_offset_setter (value : val) : Method unit :=
  g ← self_gcv;
  if is_quantitative_type (mkCV g)
  then
    match isinstance_str value with
    | None => raise TypeError
    | Some _ =>
        u ← lift (gcv_reciprocal_unit g);
        _value ← lift (_assign_and_check_unit_consistency value (Some u));
        on_gcv (set_attribute "_reciprocal_reference_offset"
                  (AQuantity _value))
    end
  else raise AttributeError.

Definition origin_offset (self : ControlledVariable) : result attr :=
  if is_quantitative_type self
  then getattr (gcv self) "_origin_offset"
  else Raise AttributeError.

Definition origin_offset_setter (value : val) : Method unit :=
  g ← self_gcv;
  if is_quantitative_type (mkCV g)
  then
    match isinstance_str value with
    | None => raise TypeError
    | Some _ =>
        u ← lift (gcv_unit g);
        _value ← lift (_assign_and_check_unit_consistency value (Some u));
        on_gcv (set_attribute "_origin_offset" (AQuantity _value))
    end
  else raise AttributeError.

Definition reciprocal_origin_offset_setter (value : val) : Method unit :=
  g ← self_gcv;
  if is_quantitative_type (mkCV g)
  then
    match isinstance_str value with
    | None => raise TypeError
    | Some _ =>
        u ← lift (gcv_reciprocal_unit g);
        _value ← lift (_assign_and_check_unit_consistency value (Some u));
        on_gcv (set_attribute "_reciprocal_origin_offset"
                  (AQuantity _value))
    end
  else raise AttributeError.

(** [sampling_interval] and [fft_output_order] compare the variable
    type with the linear name. *)
Definition sampling_interval (self : ControlledVariable) : result attr :=
  if String.eqb (variable_type (gcv self)) _quantitative_variable_types_0
  then getattr (gcv self) "_sampling_interval"
  else Raise AttributeError.

Definition fft_output_order (self : ControlledVariable) : result attr :=
  if String.eqb (variable_type (gcv self)) _quantitative_variable_types_0
  then getattr (gcv self) "_fft_output_order"
  else Raise AttributeError.

Definition fft_output_order_setter (value : val) : Method unit :=
  g ← self_gcv;
  if String.eqb (variable_type g) _quantitative_variable_types_0
  then
    match isinstance_bool value with
    | None => raise TypeError
    | Some _ =>
        on_gcv (set_attribute "_fft_output_order" (AVal value));;
        on_gcv gcv_get_coordinates
    end
  else raise AttributeError.

(** [reverse] and [reciprocal_reverse] *)
Definition reverse (self : ControlledVariable) : result attr :=
  getattr (gcv self) "_reverse".

Definition reverse_setter (value : val) : Method unit :=
  match isinstance_bool value with
  | None => raise TypeError
  | Some _ =>
      _value ← lift (_check_and_assign_bool value);
      on_gcv (set_attribute "_reverse" (AVal (VBool _value)))
  end.

Definition reciprocal_reverse (self : ControlledVariable) : result attr :=
  getattr (gcv self) "_reciprocal_reverse".

Definition reciprocal_reverse_setter (value : val) : Method unit :=
  match isinstance_bool value with
  | None => raise TypeError
  | Some _ =>
      _value ← lift (_check_and_assign_bool value);
      on_gcv (set_attribute "_reciprocal_reverse" (AVal (VBool _value)))
  end.

(** [reciprocal_period] *)
Definition reciprocal_period (self : ControlledVariable) : result attr :=
  if is_quantitative_type self
  then getattr (gcv self) "_reciprocal_period"
  else Raise AttributeError.

Definition reciprocal_period_setter (value : val) : Method unit :=
  g ← self_gcv;
  if is_quantitative_type (mkCV g)
  then
    match isinstance_str value with
    | None => raise TypeError
    | Some s =>
        tok ← lift (IndependentVariables.first_token s);
        if in_list tok IndependentVariables.lst
        then
          u ← lift (gcv_reciprocal_unit g);
          on_gcv (set_attribute "_reciprocal_period"
                    (AQuantity (inf_times u)))
        else
          u ← lift (gcv_reciprocal_unit g);
          q ← lift (_check_value_object value u);
          on_gcv (set_attribute "_reciprocal_period" (AQuantity q))
    end
  else raise AttributeError.

(** [quantity] and [reciprocal_quantity] *)
Definition quantity (self : ControlledVariable) : result attr :=
  if is_quantitative_type self
  then getattr (gcv self) "_quantity"
  else Raise AttributeError.

Definition quantity_setter (value : val) : Method unit :=
  raise NotImplementedError.

Definition reciprocal_quantity (self : ControlledVariable) : result attr :=
  if is_quantitative_type self
  then getattr (gcv self) "_reciprocal_quantity"
  else Raise AttributeError.

Definition reciprocal_quantity_setter (value : val) : Method unit :=
  raise NotImplementedError.

(** [label] and [reciprocal_label] *)
Definition label (self : ControlledVariable) : result attr :=
  getattr (gcv self) "_label".

Definition label_setter (label : val) : Method unit :=
  match isinstance_str label with
  | None => raise TypeError
  | Some _ => on_gcv (set_attribute "_label" (AVal label))
  end.

Definition reciprocal_label (self : ControlledVariable) : result attr :=
  getattr (gcv self) "_reciprocal_label".

Definition reciprocal_label_setter (label : val) : Method unit :=
  on_gcv (set_attribute "_reciprocal_label" (AVal label)).

(** [axis_label].  The helper [_axis_label] and the property
    [made_dimensionless] of the classes behind the facade are not among
    the sources. *)
Class AxisLabel : Type := {
  _axis_label : attr -> attr -> attr -> attr -> result attr;
  gcv_made_dimensionless : Gcv -> result attr;
}.
Context {axis_label_helpers : AxisLabel}.

(** [x.strip()] on the object a slot holds; only strings have the
    method. *)
Definition attr_strip (a : attr) : result str :=
  match a with
  | AVal (VStr s) => Ok (strip s)
  | _ => Raise AttributeError
  end.

Definition axis_label (self : ControlledVariable) : result attr :=
  stripped ← label self ≫= attr_strip;
  label_ ← (if str_eqb stripped [] then quantity self else label self);
  if is_quantitative_type self
  then
    u ← getattr (gcv self) "_unit";
    md ← gcv_made_dimensionless (gcv self);
    du ← getattr (gcv self) "_dimensionless_unit";
    _axis_label label_ u md du
  else label self.

(** [is_quantitative()] *)
Definition is_quantitative (self : ControlledVariable) : bool :=
  if is_quantitative_type self then true else false.

(** [to(unit, equivalencies)] *)
Definition to_unit (unit equivalencies : val) : Method Datatypes.unit :=
  g ← self_gcv;
  if is_quantitative_type (mkCV g)
  then
    match isinstance_str unit with
    | None => raise TypeError
    | Some s =>
        if str_eqb (strip s) (py "ppm")
        then on_gcv (set_attribute "_dimensionless_unit" (AUnit _ppm))
        else
          u ← lift (string_to_unit s);
          gu ← lift (gcv_unit g);
          q ← lift (_check_unit_consistency (mkQuantity (Fin 1) u) gu);
          on_gcv (set_attribute "_unit" (AUnit (unit_of q)));;
          on_gcv (set_attribute "_equivalencies" (AVal equivalencies))
    end
  else raise AttributeError.

End Classes.
End Facade.

(** ** [studium/nonLinearQuantitative.py] *)

Module Studium.
Section Class.
Context `{QuantityLib}.

(** [class _nonLinearQuantitativeControlledVariable] *)
Definition __slots__ : list string :=
  ["_sampling_type"; "_quantitative"; "_quantity"; "_number_of_points";
   "_coordinates"; "_reference_offset"; "_origin_offset"; "_reverse";
   "_label"; "_periodic"; "_made_dimensionless";
   "_reciprocal_coordinates"; "_reciprocal_quantity";
   "_reciprocal_number_of_points"; "_reciprocal_origin_offset";
   "_reciprocal_reference_offset"; "_reciprocal_reverse";
   "_reciprocal_label"; "_reciprocal_periodic";
   "_reciprocal_made_dimensionless";
   "_unit"; "_reciprocal_unit";
   "_absolute_coordinates"; "_reciprocal_absolute_coordinates"].

(** The names bound in the class body ([__class__.__dict__.keys()]),
    the slot names apart. *)
Definition class_names : list string :=
  ["__module__"; "__qualname__"; "__slots__"; "__init__"; "setAttribute";
   "__delattr__"; "__setattr__"; "sampling_type"; "quantitative";
   "periodic"; "reciprocal_periodic"; "quantity"; "reciprocal_quantity";
   "unit"; "reciprocal_unit"; "label"; "reciprocal_label";
   "made_dimensionless"; "reciprocal_made_dimensionless"; "reverse";
   "reciprocal_reverse"; "reference_offset"; "reciprocal_reference_offset";
   "origin_offset"; "reciprocal_origin_offset"; "number_of_points";
   "coordinates"; "absolute_coordinates"; "reciprocal_coordinates";
   "reciprocal_absolute_coordinates"; "_dimensionlessConversion"; "_info";
   "__str__"; "_getCoordinates"; "getJsonDictionary"; "to"; "__iadd__";
   "__isub__"].

(** An instance is the content of its slots; a method may print. *)
Definition Method (A : Type) : Type := M (world (gmap string attr)) A.

(** The helpers of the module [_studium], which is not among the
    sources, and the write that [object.__setattr__] performs for a name
    of the class body (it runs the setter of the property of that
    name). *)
Class Helpers : Type := {
  _checkAndAssignBool : val -> result bool;
  _assignAndCheckUnitConsistency : val -> option Unit -> result Qty;
  class_attribute_write : string -> attr -> Method unit;
}.
Context `{Helpers}.

(** [setAttribute(name, value)], that is
    [super().__setattr__(name, value)]. *)
Definition setAttribute (name : string) (value : attr) : Method unit :=
  if bool_decide (name ∈ __slots__)
  then modify (fun w => mkWorld (<[name := value]> (this w)) (events w))
  else class_attribute_write name value.

(** [self.<name> = value] goes through [__setattr__]. *)
Definition __setattr__ (name : string) (value : attr) : Method unit :=
  if bool_decide (name ∈ __slots__)
  then raise AttributeError
  else if bool_decide (name ∈ class_names)
  then setAttribute name value
  else raise AttributeError.

Definition print (fmt : string) (args : list attr) : Method unit :=
  modify (fun w => mkWorld (this w) (events w ++ [Printed fmt args])).

(** Reading a slot; an unassigned slot raises [AttributeError]. *)
Definition slot (name : string) : Method attr :=
  fun w => match this w !! name with
           | Some a => (Ok a, w)
           | None => (Raise AttributeError, w)
           end.

Definition as_bool (a : attr) : result bool :=
  match a with AVal v => Ok (truthy v) | _ => Raise TypeError end.
Definition as_quantity (a : attr) : result Qty :=
  match a with AQuantity q => Ok q | _ => Raise TypeError end.
Definition as_array (a : attr) : result (QuantityArray Unit) :=
  match a with AArray X => Ok X | _ => Raise TypeError end.
Definition as_unit (a : attr) : result Unit :=
  match a with AUnit u => Ok u | _ => Raise TypeError end.

(** The properties read by the methods below. *)
Definition unit_ : Method Unit := slot "_unit" ≫= lift ∘ as_unit.
Definition made_dimensionless : Method bool :=
  slot "_made_dimensionless" ≫= lift ∘ as_bool.
Definition reference_offset : Method Qty :=
  slot "_reference_offset" ≫= lift ∘ as_quantity.
Definition origin_offset : Method Qty :=
  slot "_origin_offset" ≫= lift ∘ as_quantity.
Definition coordinates : Method (QuantityArray Unit) :=
  slot "_coordinates" ≫= lift ∘ as_array.

Definition _dimensionlessConversion (unit : Unit) (_oldValue : bool)
  : Method Datatypes.unit :=
  oo ← origin_offset;
  ro ← reference_offset;
  denominator ← lift (quantity_plus oo ro);
  if negb (is_zero (value_of denominator))
  then
    md ← made_dimensionless;
    if md && _oldValue then mret tt
    else
      md ← made_dimensionless;
      if negb md && negb _oldValue then mret tt
      else
        md ← made_dimensionless;
        if md && negb _oldValue
        then
          X ← coordinates;
          _value ← lift (array_to (array_over X denominator) _ppm);
          setAttribute "_coordinates" (AArray _value)
        else
          md ← made_dimensionless;
          if negb md && _oldValue
          then
            X ← coordinates;
            _value ← lift (array_to (array_times X denominator) unit);
            setAttribute "_coordinates" (AArray _value)
          else mret tt
  else
    __setattr__ "_made_dimensionless" (AVal (VBool _oldValue));;
    oo ← origin_offset;
    ro ← reference_offset;
    print "Zero division encountered: Dimension cannot be made dimensionsless with \n'origin_offset' {0} and 'reference_offset' {1}. No changes made."
      [AQuantity oo; AQuantity ro].

Definition made_dimensionless_setter (value : val) : Method unit :=
  _oldValue ← made_dimensionless;
  _value ← lift (_checkAndAssignBool value);
  setAttribute "_made_dimensionless" (AVal (VBool _value));;
  u ← unit_;
  _dimensionlessConversion u _oldValue.

Definition _getCoordinates : Method unit :=
  _unit ← unit_;
  ro ← reference_offset;
  _reference_offset ← lift (to ro _unit);
  X ← coordinates;
  _value ← lift (array_minus X _reference_offset);
  oo ← origin_offset;
  _origin_offset ← lift (to oo _unit);
  md ← made_dimensionless;
  _value ← (if md : bool
            then
              d ← lift (quantity_plus _origin_offset _reference_offset);
              mret (array_over _value d)
            else mret _value);
  setAttribute "_coordinates" (AArray _value);;
  absolute ← lift (array_plus _value _origin_offset);
  setAttribute "_absolute_coordinates" (AArray absolute).

Definition reference_offset_setter (value : val) : Method unit :=
  u ← unit_;
  _value ← lift (_assignAndCheckUnitConsistency value (Some u));
  setAttribute "_reference_offset" (AQuantity _value);;
  _getCoordinates.

Definition origin_offset_setter (value : val) : Method unit :=
  u ← unit_;
  _value ← lift (_assignAndCheckUnitConsistency value (Some u));
  setAttribute "_origin_offset" (AQuantity _value);;
  _getCoordinates.

(** [del self.<name>] goes through [__delattr__], which has no branch
    that deletes. *)
Definition __delattr__ (name : string) : Method unit :=
  if bool_decide (name ∈ __slots__)
  then raise AttributeError
  else mret tt.

(** The setters that only check and store. *)
Definition periodic_setter (value : val) : Method unit :=
  _value ← lift (_checkAndAssignBool value);
  setAttribute "_periodic" (AVal (VBool _value)).

Definition reverse_setter (value : val) : Method unit :=
  _value ← lift (_checkAndAssignBool value);
  setAttribute "_reverse" (AVal (VBool _value)).

Definition label_setter (label : val) : Method unit :=
  setAttribute "_label" (AVal label).

Definition reciprocal_made_dimensionless_setter (value : val)
  : Method unit :=
  _oldValue ← slot "_reciprocal_made_dimensionless";
  _value ← lift (_checkAndAssignBool value);
  setAttribute "_reciprocal_made_dimensionless" (AVal (VBool _value)).

(** [to(unit)] *)
Definition to_unit (unit : Unit) : Method Datatypes.unit :=
  X ← coordinates;
  _values ← lift (array_to X unit);
  setAttribute "_coordinates" (AArray _values).

End Class.
End Studium.

(** ** [csdmpy/numpy_wrapper/__init__.py] *)

Module NumpyWrapper.

(** The argument [index] of [_check_dimension_indices]: a tuple of
    objects, or any other object (a list is [Object (VList _)]). *)
Inductive index_object : Type :=
  | Tuple (items : list val)
  | Object (v : val).

(** The inner function [_correct_index(i, d)]. *)
Definition _correct_index (i : val) (d : Z) : result Z :=
  match isinstance_int i with
  | None => Raise TypeError
  | Some i =>
      let i := if i <? 0 then i + d else i in
      if i >? d then Raise IndexError
      else Ok (-1 - i)
  end.

(** [_check_dimension_indices(d, index)].  The loop variable [i] is a
    local of the function, so the last branch, which formats [type(i)]
    into its message, reads it unbound. *)
Definition _check_dimension_indices (d : Z) (index : index_object)
  : result (list Z) :=
  let index := match index with
               | Tuple items => VList items
               | Object v => v
               end in
  match index with
  | VList items => mapM (fun item => _correct_index item d) items
  | _ =>
      match isinstance_int index with
      | Some _ => i ← _correct_index index d; Ok [i]
      | None => Raise UnboundLocalError
      end
  end.

End NumpyWrapper.

(** ** A concrete collaborator

    A small unit system on which the model can be run: a unit is a
    power of a base quantity with a scale factor, a quantity string is
    a decimal integer followed by an optional unit symbol.  It accepts
    fewer strings than the real collaborator and is only used to
    evaluate the model on concrete inputs. *)

Module Sample.

(** A unit is [scale * s^time * T^flux]. *)
Record SUnit : Type := mkUnit { time : Z; flux : Z; scale : Q }.

Definition second := mkUnit 1 0 1.
Definition millisecond := mkUnit 1 0 (1 # 1000).
Definition hertz := mkUnit (-1) 0 1.
Definition tesla := mkUnit 0 1 1.
Definition millitesla := mkUnit 0 1 (1 # 1000).
Definition gauss := mkUnit 0 1 (1 # 10000).
Definition one := mkUnit 0 0 1.
Definition ppm := mkUnit 0 0 (1 # 1000000).

Definition symbols : list (str * SUnit) :=
  [(py "s", second); (py "ms", millisecond); (py "Hz", hertz);
   (py "T", tesla); (py "mT", millitesla); (py "G", gauss)].

Fixpoint lookup_symbol (tbl : list (str * SUnit)) (s : str)
  : option SUnit :=
  match tbl with
  | (k, u) :: tbl' => if str_eqb k s then Some u else lookup_symbol tbl' s
  | [] => None
  end.

Definition consistent (u v : SUnit) : bool :=
  (time u =? time v) && (flux u =? flux v).

Definition inverse (u : SUnit) : SUnit :=
  mkUnit (- time u) (- flux u) (/ scale u).

Definition times (u v : SUnit) : SUnit :=
  mkUnit (time u + time v) (flux u + flux v) (scale u * scale v).

Definition over (u v : SUnit) : SUnit := times u (inverse v).

Definition factor (u v : SUnit) : result float :=
  if consistent u v then Ok (round64 (scale u / scale v))
  else Raise (LibraryError "UnitConversionError").

Definition convert (q : Quantity SUnit) (u : SUnit)
  : result (Quantity SUnit) :=
  k ← factor (unit_of q) u;
  Ok (mkQuantity (fmul (value_of q) k) u).

Definition convert_array (X : QuantityArray SUnit) (u : SUnit)
  : result (QuantityArray SUnit) :=
  k ← factor (array_unit X) u;
  Ok (mkArray (List.map (fun x => fmul x k) (values X)) u).

(** Decimal digits to a natural number. *)
Fixpoint digits (acc : Z) (s : str) : option Z :=
  match s with
  | [] => Some acc
  | c :: s' =>
      if ((48 <=? c) && (c <=? 57))%N
      then digits (10 * acc + Z.of_N (c - 48)) s'
      else None
  end.

Definition number (s : str) : option Z :=
  match s with
  | [] => None
  | 45%N :: (_ :: _) as s' => Z.opp <$> digits 0 s'
  | _ => digits 0 s
  end.

Definition parse (s : str) : result (Quantity SUnit) :=
  match split s with
  | [n] =>
      match number n with
      | Some z => Ok (mkQuantity (of_int z) one)
      | None => Raise (LibraryError "FormatError")
      end
  | [n; u] =>
      match number n, lookup_symbol symbols u with
      | Some z, Some u => Ok (mkQuantity (of_int z) u)
      | _, _ => Raise (LibraryError "FormatError")
      end
  | _ => Raise (LibraryError "FormatError")
  end.

Definition assign_and_check (element : val) (unit : option SUnit)
  : result (Quantity SUnit) :=
  match element with
  | VStr s =>
      q ← parse s;
      match unit with
      | Some u =>
          if consistent (unit_of q) u then Ok q
          else Raise (LibraryError "DimensionalityError")
      | None => Ok q
      end
  | _ => Raise TypeError
  end.

Definition check_value_object (element : val) (unit : SUnit)
  : result (Quantity SUnit) :=
  match element with
  | VNone => Ok (mkQuantity (Fin 0) unit)
  | _ => assign_and_check element (Some unit)
  end.

Definition check_bool (element : val) : result bool :=
  match isinstance_bool element with
  | Some b => Ok b
  | None => Raise TypeError
  end.

#[global] Instance lib : QuantityLib := {
  Unit := SUnit;
  unit_inverse := inverse;
  unit_over := over;
  unit_times := times;
  to := convert;
  array_to := convert_array;
  _ppm := ppm;
  _assign_and_check_unit_consistency := assign_and_check;
  _check_value_object := check_value_object;
  _check_quantity := fun element _ => Ok element;
  _check_and_assign_bool := check_bool;
}.

(** Buffers from [np.empty] hold leftovers; any content will do. *)
#[global] Instance numpy : Numpy := { uninitialised := fun i => 7 + Z.of_nat i }.

(** Stand-ins for the three classes behind the facade: the slots the
    facade touches, filled from the configuration. *)
Definition quantitative_slots (u : SUnit) (n : Z)
  : list (string * attr) :=
  [("_number_of_points", AVal (VInt n));
   ("_unit", AUnit u);
   ("_reference_offset", AQuantity (mkQuantity (Fin 0) u));
   ("_origin_offset", AQuantity (mkQuantity (Fin 0) u));
   ("_period", AQuantity (inf_times u));
   ("_reciprocal_reference_offset",
    AQuantity (mkQuantity (Fin 0) (inverse u)));
   ("_reciprocal_origin_offset",
    AQuantity (mkQuantity (Fin 0) (inverse u)));
   ("_reciprocal_period", AQuantity (inf_times (inverse u)))].

Definition labeled_class (dictionary : gmap string val)
  : result Facade.Gcv :=
  match dictionary !! "values" with
  | Some (VList l) =>
      Ok (Facade.mkGcv "Non-quantitative grid controlled variable"
            (list_to_map
               [("_number_of_points", AVal (VInt (Z.of_nat (List.length l))));
                ("_values", AVal (VList l))]))
  | _ => Raise TypeError
  end.

Definition parse_all (l : list val) (u : SUnit) : result (list float) :=
  mapM (M := result)
    (fun v => q ← assign_and_check v (Some u);
              value_of <$> convert q u) l.

Definition arbitrary_class (dictionary : gmap string val)
  : result Facade.Gcv :=
  match dictionary !! "values" with
  | Some (VList (v :: l)) =>
      q ← assign_and_check v None;
      let u := unit_of q in
      X ← parse_all (v :: l) u;
      Ok (Facade.mkGcv "Arbitrarily sampled grid controlled variable"
            (list_to_map
               (("_values", AVal (VList (v :: l)))
                :: ("_coordinates", AArray (mkArray X u))
                :: quantitative_slots u (Z.of_nat (List.length (v :: l))))))
  | _ => Raise TypeError
  end.

Definition linear_grid (g : Facade.Gcv) : result (QuantityArray SUnit) :=
  match Facade.slots g !! "_number_of_points",
        Facade.slots g !! "_sampling_interval" with
  | Some (AVal v), Some (AQuantity inc) =>
      match isinstance_int v with
      | Some n => Ok (index_times (arange 0 n) inc)
      | None => Raise TypeError
      end
  | _, _ => Raise AttributeError
  end.

Definition linear_class (dictionary : gmap string val)
  : result Facade.Gcv :=
  match dictionary !! "number_of_points",
        dictionary !! "sampling_interval" with
  | Some (VInt n), Some si =>
      inc ← assign_and_check si None;
      let u := unit_of inc in
      Ok (Facade.mkGcv "Linearly sampled grid controlled variable"
            (list_to_map
               (("_sampling_interval", AQuantity inc)
                :: ("_coordinates",
                    AArray (index_times (arange 0 n) inc))
                :: quantitative_slots u n)))
  | _, _ => Raise TypeError
  end.

Definition slot_array (name : string) (g : Facade.Gcv)
  : result (QuantityArray SUnit) :=
  match Facade.slots g !! name with
  | Some (AArray X) => Ok X
  | _ => Raise AttributeError
  end.

Definition slot_unit (name : string) (g : Facade.Gcv) : result SUnit :=
  match Facade.slots g !! name with
  | Some (AUnit u) => Ok u
  | _ => Raise AttributeError
  end.

#[global] Instance classes : Facade.GcvClasses := {
  Facade._NonQuantitativeDimension := labeled_class;
  Facade._ArbitrarilySampledDimension := arbitrary_class;
  Facade._LinearlySampledDimension := linear_class;
  Facade.gcv_coordinates := slot_array "_coordinates";
  Facade.gcv_reciprocal_coordinates := slot_array "_reciprocal_coordinates";
  Facade.gcv_unit := slot_unit "_unit";
  Facade.gcv_reciprocal_unit := fun g => inverse <$> slot_unit "_unit" g;
  Facade.gcv_get_coordinates := fun g =>
    match linear_grid g with
    | Ok X => Facade.set_attribute "_coordinates" (AArray X) g
    | Raise e => (Raise e, g)
    end;
}.

(** The helpers of [nonLinearQuantitative.py]; no property of the class
    is written through [object.__setattr__] in the runs below. *)
#[global] Instance helpers : Studium.Helpers := {
  Studium._checkAndAssignBool := check_bool;
  Studium._assignAndCheckUnitConsistency := assign_and_check;
  Studium.class_attribute_write := fun _ _ => raise AttributeError;
}.

(** An instance of the class of [nonLinearQuantitative.py] with the
    given coordinates (in seconds) and both offsets zero. *)
Definition nonlinear (X : list Z) (made_dimensionless : bool)
  : world (gmap string attr) :=
  mkWorld
    (list_to_map
       [("_unit", AUnit second);
        ("_reference_offset", AQuantity (mkQuantity (Fin 0) second));
        ("_origin_offset", AQuantity (mkQuantity (Fin 0) second));
        ("_made_dimensionless", AVal (VBool made_dimensionless));
        ("_coordinates", AArray (mkArray (List.map of_int X) second));
        ("_absolute_coordinates",
         AArray (mkArray (List.map of_int X) second))])
    [].

(** A linear dimension as the constructor returns it for default
    offsets, period and labels. *)
Definition linear (N : Z) (increment : string) (fft : bool)
  : result IndependentVariables.DimensionWithLinearSpacing :=
  IndependentVariables.DimensionWithLinearSpacing_init N
    (VStr (py increment)) VNone VNone VNone VNone (VStr []) (VBool fft)
    VNone VNone VNone (VStr []) VNone.

(** The same dimension written out: count [N], increment 1 s, natural
    order, default offsets and period. *)
Definition defaults_in (u : SUnit)
  : IndependentVariables.BaseIndependentVariable :=
  IndependentVariables.mkBase
    (mkQuantity (Fin 0) u) (mkQuantity (Fin 0) u) VNone (inf_times u)
    [] None u.

Definition dimension (N : Z)
  : IndependentVariables.DimensionWithLinearSpacing :=
  IndependentVariables.mkLinear
    (defaults_in second) N (mkQuantity (Fin 1) second) false
    (defaults_in hertz) None None
    (index_times (arange 0 N) (mkQuantity (Fin 1) second)).

(** Five ascending quantities, and the arbitrarily sampled dimension
    the facade builds from them. *)
Definition five : list val :=
  [VStr (py "1 s"); VStr (py "2 s"); VStr (py "5 s"); VStr (py "7 s");
   VStr (py "9 s")].

Definition arbitrary5 : world Facade.ControlledVariable :=
  mkWorld
    (Facade.mkCV
       (Facade.mkGcv "Arbitrarily sampled grid controlled variable"
          (list_to_map
             (("_values", AVal (VList five))
              :: ("_coordinates",
                  AArray (mkArray [Fin 1; Fin 2; Fin 5; Fin 7; Fin 9] second))
              :: quantitative_slots second 5))))
    [].

(** Stand-ins for the helpers of [csdfpy/unit.py] and for
    [_check_unit_consistency]: a unit string is a symbol of the table,
    and the formatter prints the symbol of the unit only. *)
Definition unit_eqb (u v : SUnit) : bool :=
  consistent u v && Qeq_bool (scale u) (scale v).

Fixpoint symbol_of (tbl : list (str * SUnit)) (u : SUnit) : str :=
  match tbl with
  | (k, v) :: tbl' => if unit_eqb u v then k else symbol_of tbl' u
  | [] => []
  end.

Definition check_unit_consistency (q : Quantity SUnit) (u : SUnit)
  : result (Quantity SUnit) :=
  if consistent (unit_of q) u then Ok q
  else Raise (LibraryError "DimensionalityError").

#[global] Instance unit_helpers : UnitHelpers := {
  value_object_format := fun q => symbol_of symbols (unit_of q);
  string_to_unit := fun s =>
    match lookup_symbol symbols (strip s) with
    | Some u => Ok u
    | None => Raise (LibraryError "FormatError")
    end;
  _check_unit_consistency := check_unit_consistency;
}.

#[global] Instance axis_labels : Facade.AxisLabel := {
  Facade._axis_label := fun label _ _ _ => Ok label;
  Facade.gcv_made_dimensionless := fun g =>
    Facade.getattr g "_made_dimensionless";
}.

(** A labeled dimension of three entries with a blank label, behind the
    facade and as the class of [_independent_variables.py]. *)
Definition three : list val := [VStr (py "a"); VStr (py "b"); VStr (py "c")].

Definition labeled3 : world Facade.ControlledVariable :=
  mkWorld
    (Facade.mkCV
       (Facade.mkGcv "Non-quantitative grid controlled variable"
          (list_to_map
             [("_number_of_points", AVal (VInt 3));
              ("_values", AVal (VList three));
              ("_reverse", AVal (VBool false));
              ("_label", AVal (VStr (py " ")))])))
    [].

Definition labels3 : IndependentVariables.Labels.DimensionWithLabels :=
  IndependentVariables.Labels.mkLabels
    3 (VList three) (VList three) (VStr []) (VBool false).

(** The arbitrarily sampled dimension of the five quantities, as the
    class of [_independent_variables.py]. *)
Definition arbitrary_dimension
  : IndependentVariables.ArbitrarySpacing.DimensionWithArbitrarySpacing :=
  IndependentVariables.ArbitrarySpacing.mkArbitrary
    (defaults_in second) (defaults_in hertz) 5 five
    (mkArray [Fin 1; Fin 2; Fin 5; Fin 7; Fin 9] second).



(** An instance of the class of [nonLinearQuantitative.py] with
    coordinates 1 s, 2 s, 3 s, reference offset 1 s and origin offset
    zero. *)
Definition shifted : world (gmap string attr) :=
  mkWorld
    (list_to_map
       [("_unit", AUnit second);
        ("_reference_offset", AQuantity (mkQuantity (Fin 1) second));
        ("_origin_offset", AQuantity (mkQuantity (Fin 0) second));
        ("_made_dimensionless", AVal (VBool false));
        ("_coordinates", AArray (mkArray [Fin 1; Fin 2; Fin 3] second));
        ("_absolute_coordinates",
         AArray (mkArray [Fin 1; Fin 2; Fin 3] second))])
    [].

End Sample.

(** * Properties *)

(** ** Run-time lemmas *)

Lemma arange_length (a b : Z) : List.length (arange a b) = Z.to_nat (b - a).
Proof. unfold arange. by rewrite length_map, length_seq. Qed.


Lemma broadcast_to_same (src : list Z) :
  broadcast_to (List.length src) src = Ok src.
Proof. unfold broadcast_to. by rewrite Nat.eqb_refl. Qed.

Lemma set_prefix_exact (a src : list Z) (n : Z) :
  List.length src = Z.to_nat n ->
  (Z.to_nat n <= List.length a)%nat ->
  set_prefix a n src = Ok (src ++ drop (Z.to_nat n) a).
Proof.
  intros Hsrc Hle. unfold set_prefix.
  rewrite length_take, Nat.min_l by exact Hle.
  rewrite <- Hsrc at 1. by rewrite broadcast_to_same.
Qed.

Lemma set_suffix_exact (a src : list Z) (n : Z) :
  (List.length src + Z.to_nat n = List.length a)%nat ->
  set_suffix a n src = Ok (take (Z.to_nat n) a ++ src).
Proof.
  intros Hlen. unfold set_suffix.
  replace (List.length (drop (Z.to_nat n) a)) with (List.length src)
    by (rewrite length_drop; lia).
  by rewrite broadcast_to_same.
Qed.

Lemma in_list_iff (x : str) (l : list str) : in_list x l = true <-> x ∈ l.
Proof.
  unfold in_list. rewrite existsb_exists, list_elem_of_In. split.
  - intros (y & Hy & Heq). unfold str_eqb in Heq.
    apply bool_decide_eq_true in Heq. by subst.
  - intros Hx. exists x. split; [done|].
    unfold str_eqb. by apply bool_decide_eq_true.
Qed.

(** [strip] and [split] on whitespace. *)
Lemma forallb_rev {A} (f : A -> bool) (l : list A) :
  forallb f (rev l) = forallb f l.
Proof.
  induction l as [|x l IH]; [done|].
  simpl. rewrite forallb_app, IH. simpl. rewrite andb_true_r.
  apply andb_comm.
Qed.

Lemma forallb_lstrip (s : str) :
  forallb isspace (lstrip s) = forallb isspace s.
Proof.
  induction s as [|c s IH]; [done|].
  simpl. destruct (isspace c) eqn:Hc; [done|]. simpl. by rewrite Hc.
Qed.

Lemma forallb_strip (s : str) : forallb isspace (strip s) = forallb isspace s.
Proof.
  unfold strip, rstrip.
  by rewrite forallb_rev, forallb_lstrip, forallb_rev, forallb_lstrip.
Qed.

Lemma split_aux_nil (cur s : str) :
  split_aux cur s = [] <-> cur = [] /\ forallb isspace s = true.
Proof.
  revert cur. induction s as [|c s IH]; intros cur; simpl.
  - destruct cur; split; try done. by intros [? _].
  - destruct (isspace c) eqn:Hc; simpl.
    + destruct cur; [apply IH|]. split; [done|]. by intros [? _].
    + rewrite IH. split; [by intros [? _]|by intros [_ ?]].
Qed.

Lemma split_strip_nil (s : str) :
  split (strip s) = [] <-> forallb isspace s = true.
Proof.
  unfold split. rewrite split_aux_nil, forallb_strip. tauto.
Qed.

(** Unfold the monadic plumbing of a method call. *)
Ltac run :=
  cbv [mbind M_bind mret M_ret result_bind result_ret
       modify get put lift raise zoom].

Section Properties.
Context `{QuantityLib} `{Numpy}.
Context {classes : Facade.GcvClasses} {helpers : Studium.Helpers}.
Import IndependentVariables.

(** ** The sentinel test of [period.setter] *)

Lemma first_token_whitespace (s : str) :
  forallb isspace s = true -> first_token s = Raise IndexError.
Proof.
  intros Hs. unfold first_token.
  by apply split_strip_nil in Hs as ->.
Qed.

Lemma first_token_total (s : str) :
  (exists tok, first_token s = Ok tok) <-> forallb isspace s = false.
Proof.
  unfold first_token. pose proof (split_strip_nil s) as Hnil.
  destruct (split (strip s)) as [|tok toks].
  - split; [by intros [? ?]|]. intros Hs.
    destruct Hnil as [Hnil _]. by rewrite Hnil in Hs.
  - split; [|by exists tok]. intros _.
    destruct (forallb isspace s); [|done].
    by destruct Hnil as [_ Hnil]; specialize (Hnil eq_refl).
Qed.

(** C10.  For every empty or whitespace-only string, assigning it to
    [period] raises [IndexError], in the class of the dimension as in
    the facade (for a quantitative dimension), and leaves the object as
    it was; [value.strip().split()[0]] yields a token exactly for the
    strings with a code point that is not whitespace. *)
Theorem whitespace_period_raises_IndexError (s : str) :
  forallb isspace s = true ->
  (forall self : BaseIndependentVariable,
      period_setter (VStr s) self = (Raise IndexError, self))
  /\ (forall w : world Facade.ControlledVariable,
        Facade.is_quantitative_type (this w) = true ->
        Facade.period_setter (VStr s) w = (Raise IndexError, w))
  /\ (forall s' : str,
        (exists tok, first_token s' = Ok tok)
        <-> forallb isspace s' = false).
Proof.
  intros Hs. split; [|split].
  - intros self. unfold period_setter. cbn [isinstance_str]. run.
    by rewrite first_token_whitespace.
  - intros [[g] ev] Hq. unfold Facade.period_setter, Facade.self_gcv.
    run. cbn in Hq |- *. rewrite Hq. cbn [isinstance_str].
    by rewrite first_token_whitespace.
  - apply first_token_total.
Qed.

(** ** Zero and negative values *)

Lemma is_zero_not_negative (x : float) :
  is_zero x = true -> is_negative x = false.
Proof.
  destruct x as [q| | |]; simpl; try done.
  intros Hq. apply Qeq_bool_iff in Hq. apply Qeq_alt in Hq.
  unfold qsign. by rewrite Hq.
Qed.

(** A negative increment is rejected and nothing is stored. *)
Lemma increment_setter_negative (s : str) (q : Qty)
    (self : DimensionWithLinearSpacing) :
  _assign_and_check_unit_consistency (VStr s) (Some (_unit (base self)))
  = Ok q ->
  is_negative (value_of q) = true ->
  increment_setter (VStr s) self = (Raise ValueError, self).
Proof.
  intros Hq Hneg. unfold increment_setter. cbn [isinstance_str]. run.
  by rewrite Hq, Hneg.
Qed.

(** A zero increment passes the test [_value.value < 0.0]: it is stored
    and the cache is recomputed from it. *)
Lemma increment_setter_zero (s : str) (q : Qty)
    (self : DimensionWithLinearSpacing) :
  _assign_and_check_unit_consistency (VStr s) (Some (_unit (base self)))
  = Ok q ->
  is_zero (value_of q) = true ->
  increment_setter (VStr s) self = _get_coordinates (with_increment q self).
Proof.
  intros Hq Hzero. unfold increment_setter. cbn [isinstance_str]. run.
  by rewrite Hq, (is_zero_not_negative _ Hzero).
Qed.

(** The constructors never leave a zero period. *)
Lemma set_parameters_period_nonzero
    (ro oo q p l : val) (u : Unit) (self : BaseIndependentVariable) :
  _set_parameters ro oo q p l u = Ok self ->
  is_zero (value_of (_period self)) = false.
Proof.
  unfold _set_parameters. run.
  destruct (_check_value_object ro u); [|done].
  destruct (_check_value_object oo u); [|done].
  destruct (_check_value_object p u) as [pv|]; [|done].
  destruct (_check_quantity q u); [|done].
  destruct (check_label l); [|done].
  intros [= <-]. cbn. by destruct (is_zero (value_of pv)) eqn:Hz.
Qed.

(** [period.setter] stores a sentinel as infinity and anything else as
    the collaborator returns it, a zero value included. *)
Lemma period_setter_sentinel (s tok : str) (self : BaseIndependentVariable) :
  first_token s = Ok tok ->
  in_list tok lst = true ->
  period_setter (VStr s) self
  = (Ok tt, with_period (inf_times (_unit self)) self).
Proof.
  intros Htok Hin. unfold period_setter. cbn [isinstance_str]. run.
  by rewrite Htok, Hin.
Qed.

Lemma period_setter_other (s tok : str) (q : Qty)
    (self : BaseIndependentVariable) :
  first_token s = Ok tok ->
  in_list tok lst = false ->
  _check_value_object (VStr s) (_unit self) = Ok q ->
  period_setter (VStr s) self = (Ok tt, with_period q self).
Proof.
  intros Htok Hin Hq. unfold period_setter. cbn [isinstance_str]. run.
  by rewrite Htok, Hin, Hq.
Qed.

(** ** The FFT-order index array *)

(** The buffer obtained from [np.empty] is overwritten entirely: the
    index array does not depend on its initial contents. *)
Lemma fft_index_eq (N : Z) :
  0 <= N ->
  fft_index N = Ok (arange 0 ((N - 1) / 2 + 1) ++ arange (- (N / 2)) 0).
Proof.
  intros HN. unfold fft_index, np_empty.
  destruct (Z.ltb_spec N 0) as [|_]; [lia|]. cbn [mbind result_bind].
  set (buf := List.map uninitialised (seq 0 (Z.to_nat N))).
  assert (Hbuf : List.length buf = Z.to_nat N)
    by (unfold buf; by rewrite length_map, length_seq).
  set (n := (N - 1) / 2 + 1).
  assert (Hn : 0 <= n <= N /\ n + N / 2 = N).
  { unfold n. Z.div_mod_to_equations. lia. }
  assert (Hp1 : List.length (arange 0 n) = Z.to_nat n)
    by (rewrite arange_length; f_equal; lia).
  assert (Hp2 : List.length (arange (- (N / 2)) 0) = Z.to_nat (N / 2))
    by (rewrite arange_length; f_equal; lia).
  rewrite set_prefix_exact by (first [exact Hp1 | lia]).
  cbn [mbind result_bind].
  rewrite set_suffix_exact.
  - cbn [mbind result_bind]. f_equal. f_equal.
    rewrite <- Hp1. apply take_app_length.
  - rewrite length_app, length_drop, Hp1, Hp2, Hbuf. lia.
Qed.

Lemma FFT_output_order_setter_true (self : DimensionWithLinearSpacing)
    (m : Qty) :
  0 <= _number_of_points self ->
  to (_increment self) (_unit (base self)) = Ok m ->
  FFT_output_order_setter (VBool true) self
  = (Ok tt,
     with_coordinates
       (index_times (index_array (with_fft_output_order true self)) m)
       (with_fft_output_order true self)).
Proof.
  intros HN Hm.
  unfold FFT_output_order_setter, _get_coordinates, index_array.
  cbn [isinstance_bool]. run. cbn. rewrite Hm, fft_index_eq by done.
  reflexivity.
Qed.

(** C1 (amended).  Setting [FFT_output_order] to true on a linear
    dimension with count [N >= 0] and increment [m] (in the unit of the
    dimension) recomputes the coordinate array as the index sequence
    [0, 1, ..., n-1, -⌊N/2⌋, ..., -1] with [n = ⌊(N-1)/2⌋ + 1], each
    index multiplied by [m]; for [N = 10] the indices are
    [0,1,2,3,4,-5,-4,-3,-2,-1] and for [N = 5] they are [0,1,2,-2,-1]. *)
Theorem fft_output_order_coordinates (self : DimensionWithLinearSpacing)
    (m : Qty) :
  0 <= _number_of_points self ->
  to (_increment self) (_unit (base self)) = Ok m ->
  let N := _number_of_points self in
  let index := arange 0 ((N - 1) / 2 + 1) ++ arange (- (N / 2)) 0 in
  (exists self',
      FFT_output_order_setter (VBool true) self = (Ok tt, self')
      /\ _coordinates self'
         = mkArray (List.map (fun j => fmul (of_int j) (value_of m)) index)
             (unit_of m))
  /\ (N = 10 -> index = [0; 1; 2; 3; 4; -5; -4; -3; -2; -1])
  /\ (N = 5 -> index = [0; 1; 2; -2; -1]).
Proof.
  intros HN Hm N index. split; [|split].
  - eexists. split; [by apply FFT_output_order_setter_true|reflexivity].
  - unfold index. intros ->. reflexivity.
  - unfold index. intros ->. reflexivity.
Qed.

(** ** Swapping a dimension with its reciprocal *)

(** C3.  [_swap] exchanges the reference offset, origin offset, period,
    quantity, label and unit between a linear dimension and its
    reciprocal, leaves every other slot of both objects as it was, and
    applied twice gives the original object back. *)
Theorem swap_exchanges_six_fields (self : DimensionWithLinearSpacing) :
  exists self',
    _swap self = (Ok tt, self')
    /\ (_reference_offset (base self') = _reference_offset (reciprocal self)
        /\ _origin_offset (base self') = _origin_offset (reciprocal self)
        /\ _period (base self') = _period (reciprocal self)
        /\ _quantity (base self') = _quantity (reciprocal self)
        /\ _label (base self') = _label (reciprocal self)
        /\ _unit (base self') = _unit (reciprocal self))
    /\ (_reference_offset (reciprocal self') = _reference_offset (base self)
        /\ _origin_offset (reciprocal self') = _origin_offset (base self)
        /\ _period (reciprocal self') = _period (base self)
        /\ _quantity (reciprocal self') = _quantity (base self)
        /\ _label (reciprocal self') = _label (base self)
        /\ _unit (reciprocal self') = _unit (base self))
    /\ (_equivalencies (base self') = _equivalencies (base self)
        /\ _equivalencies (reciprocal self')
           = _equivalencies (reciprocal self)
        /\ _number_of_points self' = _number_of_points self
        /\ _increment self' = _increment self
        /\ _fft_output_order self' = _fft_output_order self
        /\ _reciprocal_number_of_points self'
           = _reciprocal_number_of_points self
        /\ _reciprocal_increment self' = _reciprocal_increment self
        /\ _coordinates self' = _coordinates self)
    /\ _swap self' = (Ok tt, self).
Proof.
  destruct self as [[ro oo q p l e u] N m fft [ro' oo' q' p' l' e' u'] rn ri X].
  eexists. split; [vm_compute; reflexivity|].
  vm_compute. repeat split.
Qed.

(** ** Reference coordinates and the reference offset *)

(** Arithmetic without rounding. *)







Lemma fft_index_negative (N : Z) : N < 0 -> fft_index N = Raise ValueError.
Proof.
  intros HN. unfold fft_index, np_empty.
  by destruct (Z.ltb_spec N 0); [|lia].
Qed.

(** What a successful recomputation of the cache stores. *)
Lemma get_coordinates_inv (self0 self : DimensionWithLinearSpacing) :
  _get_coordinates self0 = (Ok tt, self) ->
  exists inc,
    to (_increment self0) (_unit (base self0)) = Ok inc
    /\ self = with_coordinates (index_times (index_array self0) inc) self0.
Proof.
  unfold _get_coordinates, index_array. run.
  destruct (to _ _) as [inc|e]; [|discriminate].
  destruct (_fft_output_order self0).
  - destruct (Z.lt_ge_cases (_number_of_points self0) 0) as [Hlt|Hge].
    + rewrite fft_index_negative by done. discriminate.
    + rewrite fft_index_eq by done. intros [= <-]. by exists inc.
  - intros [= <-]. by exists inc.
Qed.





(** ** The facade: choice of the variant *)

Lemma fold_update_key_lookup (subs input : gmap string val) (key : string) :
  key <> "reciprocal" ->
  map_fold (Facade.update_key subs) Facade.defaults input !! key
  = (fun dv => default dv (input !! key)) <$> Facade.defaults !! key.
Proof.
  intros Hkey.
  apply (map_fold_weak_ind (fun r m =>
    r !! key = (fun dv => default dv (m !! key)) <$> Facade.defaults !! key)).
  - rewrite lookup_empty. by destruct (Facade.defaults !! key).
  - intros i x m r Hi IH. unfold Facade.update_key.
    destruct (Facade.defaults !! i) eqn:Hd.
    + destruct (String.eqb_spec i "reciprocal") as [->|Hne].
      * by rewrite !lookup_insert_ne.
      * destruct (decide (i = key)) as [->|Hik].
        -- by rewrite !lookup_insert_eq, Hd.
        -- by rewrite !lookup_insert_ne.
    + destruct (decide (i = key)) as [->|Hik].
      * by rewrite lookup_insert_eq, IH, Hd.
      * by rewrite lookup_insert_ne.
Qed.

(** After the loop over the input keys, [dictionary[key]] is the input
    value if the key was given and the default otherwise. *)
Lemma update_defaults_getitem (input d : gmap string val)
    (key : string) (dv : val) :
  Facade.update_defaults input = Ok d ->
  key <> "reciprocal" ->
  Facade.defaults !! key = Some dv ->
  Facade.getitem d key = Ok (default dv (input !! key)).
Proof.
  unfold Facade.update_defaults, Facade.getitem. intros Hd Hkey Hdv.
  destruct (input !! "reciprocal") as [[]|]; cbn in Hd; try done;
    injection Hd as <-; by rewrite fold_update_key_lookup, Hdv.
Qed.

(** The variant [ControlledVariable.__init__] builds, by the four
    entries of the configuration it looks at.  With [values] absent and
    exactly one of [number_of_points] and [sampling_interval] given, no
    variant is built and the final read of [_gcv_object] fails; with all
    three given, the arbitrary variant is constructed first and then
    replaced by the linear one. *)
Lemma init_selection (input d : gmap string val) :
  Facade.update_defaults input = Ok d ->
  let nq := truthy (default (VBool false) (input !! "non_quantitative")) in
  let no_n := is_None (default VNone (input !! "number_of_points")) in
  let no_si := is_None (default VNone (input !! "sampling_interval")) in
  let no_v := is_None (default VNone (input !! "values")) in
  Facade.ControlledVariable_init input
  = if nq
    then
      if no_v
      then Raise (Exception
             "'values' key is required for non-quantitative dimension.")
      else Facade.mkCV <$> Facade._NonQuantitativeDimension d
    else if no_v
    then
      if no_n && no_si
      then Raise (Exception
             "either 'number_of_points, sampling_interval' or 'values' key is required.")
      else if no_n || no_si
      then Raise UnboundLocalError
      else Facade.mkCV <$> Facade._LinearlySampledDimension d
    else
      if no_n || no_si
      then Facade.mkCV <$> Facade._ArbitrarilySampledDimension d
      else Facade._ArbitrarilySampledDimension d ≫= fun _ =>
           Facade.mkCV <$> Facade._LinearlySampledDimension d.
Proof.
  intros Hd. cbv zeta. unfold Facade.ControlledVariable_init.
  rewrite Hd. cbn [mbind result_bind].
  unfold Facade._check_quantitative_arbitrary,
    Facade._check_quantitative_linear, Facade._check_quantitative,
    Facade.all_three_None, Facade._check_non_quantitative.
  rewrite (update_defaults_getitem input d "non_quantitative" (VBool false))
    by done.
  rewrite (update_defaults_getitem input d "values" VNone) by done.
  rewrite (update_defaults_getitem input d "number_of_points" VNone) by done.
  rewrite (update_defaults_getitem input d "sampling_interval" VNone) by done.
  cbn [mbind result_bind].
  destruct (truthy _);
    destruct (is_None (default VNone (input !! "values")));
    destruct (is_None (default VNone (input !! "number_of_points")));
    destruct (is_None (default VNone (input !! "sampling_interval")));
    cbn; try reflexivity;
    repeat match goal with
           | |- context [Facade._NonQuantitativeDimension d] =>
               destruct (Facade._NonQuantitativeDimension d)
           | |- context [Facade._ArbitrarilySampledDimension d] =>
               destruct (Facade._ArbitrarilySampledDimension d)
           | |- context [Facade._LinearlySampledDimension d] =>
               destruct (Facade._LinearlySampledDimension d)
           end; reflexivity.
Qed.

(** C4.  With [number_of_points] given and neither [sampling_interval]
    nor [values], none of the three variants is built and
    [ControlledVariable.__init__] fails on the unbound local
    [_gcv_object], not with the configuration error that asks for
    count and increment or values. *)
Theorem init_count_without_increment_unbound :
  Facade.ControlledVariable_init {[ "number_of_points" := VInt 10 ]}
  = Raise UnboundLocalError.
Proof. by erewrite init_selection. Qed.

(** ** The facade: count of an arbitrary or labeled dimension *)

Lemma string_eqb_false (a b : string) : a <> b -> String.eqb a b = false.
Proof. by intros Hne; apply String.eqb_neq. Qed.

(** C5 (amended).  On a dimension that is not linear, with [k] stored
    values and stored count [c]: assigning a count [v] with
    [1 <= v < c] stores [v] as the count and issues the truncation
    warning, and the stored values array keeps all its [k] entries
    ([values] still returns them); assigning [v > c] raises
    [ValueError] and leaves the dimension and the warnings as they
    were. *)
Theorem number_of_points_setter_keeps_values
    (w : world Facade.ControlledVariable) (vs : list val) (c v : Z) :
  let g := Facade.gcv (this w) in
  Facade.variable_type g <> Facade._quantitative_variable_types_0 ->
  Facade.slots g !! "_values" = Some (AVal (VList vs)) ->
  Facade.slots g !! "_number_of_points" = Some (AVal (VInt c)) ->
  (1 <= v < c ->
   exists w',
     Facade.number_of_points_setter (VInt v) w = (Ok tt, w')
     /\ Facade.gcv (this w')
        = Facade.mkGcv (Facade.variable_type g)
            (<["_number_of_points" := AVal (VInt v)]> (Facade.slots g))
     /\ events w'
        = events w
          ++ [Warned
                "The number of controlled variable coordinates, {0}, are truncated to {1}."
                [AVal (VInt c); AVal (VInt v)]]
     /\ Facade.number_of_points (this w') = Ok (AVal (VInt v))
     /\ Facade.values_getter (this w') = Ok (AVal (VList vs)))
  /\ (c < v ->
      Facade.number_of_points_setter (VInt v) w = (Raise ValueError, w)).
Proof.
  destruct w as [[g] ev]. cbv zeta. cbn [this Facade.gcv].
  intros Hvt Hvs Hn.
  assert (Hread : Facade.number_of_points (Facade.mkCV g) ≫= Facade.as_int
                  = Ok c).
  { unfold Facade.number_of_points, Facade.getattr. cbn [Facade.gcv].
    by rewrite Hn. }
  cbv [mbind result_bind] in Hread.
  split.
  - intros [Hv1 Hvc].
    unfold Facade.number_of_points_setter, Facade.self_gcv, Facade.warn,
      Facade.on_gcv, Facade.set_attribute.
    cbn [isinstance_int].
    destruct (Z.leb_spec v 0) as [|_]; [lia|].
    run. cbn [this Facade.gcv events].
    rewrite (string_eqb_false _ _ Hvt). cbn [negb].
    rewrite Hread.
    destruct (Z.gtb_spec v c) as [|_]; [lia|].
    destruct (Z.ltb_spec v c) as [_|]; [|lia].
    eexists. split; [reflexivity|]. cbn.
    repeat split.
    + unfold Facade.number_of_points, Facade.getattr.
      cbn [Facade.gcv Facade.slots]. by rewrite lookup_insert_eq.
    + unfold Facade.values_getter, Facade.getattr.
      cbn [Facade.gcv Facade.slots Facade.variable_type].
      rewrite (string_eqb_false _ _ Hvt).
      by rewrite lookup_insert_ne, Hvs.
  - intros Hcv.
    unfold Facade.number_of_points_setter, Facade.self_gcv.
    cbn [isinstance_int].
    destruct (Z.leb_spec v 0) as [|_]; [reflexivity|].
    run. cbn [this Facade.gcv events].
    rewrite (string_eqb_false _ _ Hvt). cbn [negb].
    rewrite Hread.
    by destruct (Z.gtb_spec v c) as [_|]; [|lia].
Qed.

(** ** The facade: accessors of the reciprocal dimension *)

(** C9.  On an arbitrarily sampled dimension [reciprocal_coordinates]
    raises [AttributeError], while [absolute_coordinates],
    [reciprocal_reference_offset] and [reciprocal_origin_offset] pass
    their variant test and go on to the object behind the facade; on a
    linearly sampled dimension all four pass it; and of the two
    quantitative variants only the linear one can get a value out of
    [reciprocal_coordinates]. *)
Theorem reciprocal_coordinates_linear_only
    (self : Facade.ControlledVariable) :
  let g := Facade.gcv self in
  let accepted :=
    Facade.absolute_coordinates self
    = (X ← Facade.gcv_coordinates g;
       oo ← Facade.getattr g "_origin_offset" ≫= Facade.as_quantity;
       u ← Facade.gcv_unit g;
       oo ← to oo u;
       array_plus X oo)
    /\ Facade.reciprocal_reference_offset self
       = Facade.getattr g "_reciprocal_reference_offset"
    /\ Facade.reciprocal_origin_offset self
       = Facade.getattr g "_reciprocal_origin_offset" in
  (Facade.variable_type g = "Arbitrarily sampled grid controlled variable" ->
   Facade.reciprocal_coordinates self = Raise AttributeError /\ accepted)
  /\ (Facade.variable_type g = "Linearly sampled grid controlled variable" ->
      Facade.reciprocal_coordinates self
      = Facade.gcv_reciprocal_coordinates g
      /\ accepted)
  /\ (forall X,
        Facade.is_quantitative_type self = true ->
        Facade.reciprocal_coordinates self = Ok X ->
        Facade.variable_type g
        = "Linearly sampled grid controlled variable").
Proof.
  destruct self as [g]. cbn [Facade.gcv]. cbv zeta.
  unfold Facade.absolute_coordinates, Facade.reciprocal_coordinates,
    Facade.reciprocal_reference_offset, Facade.reciprocal_origin_offset,
    Facade.is_quantitative_type.
  cbn [Facade.gcv]. split; [|split].
  - by intros ->.
  - by intros ->.
  - intros X Hq. apply bool_decide_eq_true in Hq.
    unfold Facade._quantitative_variable_types in Hq.
    apply elem_of_cons in Hq as [Hq|Hq]; [done|].
    apply list_elem_of_singleton in Hq. by rewrite Hq.
Qed.

(** ** The dimensionless conversion of [nonLinearQuantitative.py] *)

Lemma setAttribute_made_dimensionless (a : attr)
    (w : world (gmap string attr)) :
  Studium.setAttribute "_made_dimensionless" a w
  = (Ok tt, mkWorld (<["_made_dimensionless" := a]> (this w)) (events w)).
Proof. reflexivity. Qed.



Lemma fdiv_zero_not_finite (x d : float) :
  is_zero d = true -> forall q, fdiv x d <> Fin q.
Proof.
  destruct d as [b| | |]; cbn; try done. intros Hb q.
  apply Qeq_bool_iff in Hb. apply Qeq_alt in Hb.
  destruct x as [a| | |]; cbn; unfold qsign; try rewrite Hb; try done.
  by destruct (a ?= 0)%Q.
Qed.

Lemma slot_read (name : string) (a : attr) (w : world (gmap string attr)) :
  this w !! name = Some a -> Studium.slot name w = (Ok a, w).
Proof. intros Ha. unfold Studium.slot. by rewrite Ha. Qed.

Lemma getCoordinates_run (w : world (gmap string attr))
    (u : Unit) (ro oo r o : Qty) (X X1 : QuantityArray Unit) (v : val) :
  this w !! "_unit" = Some (AUnit u) ->
  this w !! "_reference_offset" = Some (AQuantity ro) ->
  this w !! "_origin_offset" = Some (AQuantity oo) ->
  this w !! "_coordinates" = Some (AArray X) ->
  this w !! "_made_dimensionless" = Some (AVal v) ->
  to ro u = Ok r ->
  array_minus X r = Ok X1 ->
  to oo u = Ok o ->
  Studium._getCoordinates w
  = match (if truthy v
           then d ← quantity_plus o r; Ok (array_over X1 d)
           else Ok X1) with
    | Ok X2 =>
        let w1 := mkWorld (<["_coordinates" := AArray X2]> (this w))
                    (events w) in
        match array_plus X2 o with
        | Ok X3 =>
            (Ok tt,
             mkWorld (<["_absolute_coordinates" := AArray X3]> (this w1))
               (events w))
        | Raise e => (Raise e, w1)
        end
    | Raise e => (Raise e, w)
    end.
Proof.
  intros Hu Hro Hoo HX Hmd Hr HX1 Ho.
  unfold Studium._getCoordinates, Studium.unit_, Studium.reference_offset,
    Studium.origin_offset, Studium.coordinates, Studium.made_dimensionless,
    Studium.setAttribute.
  cbn [bool_decide decide_rel]. unfold compose.
  cbv [mbind M_bind].
  rewrite (slot_read _ _ _ Hu). cbn [Studium.as_unit lift].
  rewrite (slot_read _ _ _ Hro). cbn [Studium.as_quantity lift].
  rewrite Hr.
  rewrite (slot_read _ _ _ HX). cbn [Studium.as_array lift].
  rewrite HX1.
  rewrite (slot_read _ _ _ Hoo). cbn [Studium.as_quantity lift].
  rewrite Ho.
  rewrite (slot_read _ _ _ Hmd). cbn [Studium.as_bool lift].
  destruct (truthy v).
  - cbv [mbind M_bind result_bind lift mret M_ret].
    destruct (quantity_plus o r) as [d|]; [|done].
    rewrite bool_decide_eq_true_2 by (vm_compute; set_solver).
    cbv [modify]. cbn [this events].
    destruct (array_plus (array_over X1 d) o); [|done].
    by rewrite bool_decide_eq_true_2 by (vm_compute; set_solver).
  - cbv [mbind M_bind result_bind lift mret M_ret].
    rewrite bool_decide_eq_true_2 by (vm_compute; set_solver).
    cbv [modify]. cbn [this events].
    destruct (array_plus X1 o); [|done].
    by rewrite bool_decide_eq_true_2 by (vm_compute; set_solver).
Qed.



End Properties.

(** * Runs on the sample collaborator *)

Section Runs.
Import IndependentVariables Sample.

(** The written-out objects are what the constructors return. *)
Lemma dimension_constructed : linear 10 "1 s" false = Ok (dimension 10).
Proof. reflexivity. Qed.

Lemma arbitrary5_constructed :
  Facade.ControlledVariable_init {[ "values" := VList five ]}
  = Ok (this arbitrary5).
Proof. reflexivity. Qed.

(** The FFT order for ten points of 1 s. *)
Lemma fft_output_order_coordinates_run :
  0 <= _number_of_points (dimension 10)
  /\ to (_increment (dimension 10)) (_unit (base (dimension 10)))
     = Ok (mkQuantity (Fin 1) second)
  /\ exists self',
      FFT_output_order_setter (VBool true) (dimension 10) = (Ok tt, self')
      /\ values (_coordinates self')
         = [Fin 0; Fin 1; Fin 2; Fin 3; Fin 4;
            Fin (-5); Fin (-4); Fin (-3); Fin (-2); Fin (-1)].
Proof.
  assert (HN : 0 <= _number_of_points (dimension 10)) by (simpl; lia).
  assert (Hm : to (_increment (dimension 10)) (_unit (base (dimension 10)))
               = Ok (mkQuantity (Fin 1) second)) by reflexivity.
  split; [exact HN|]. split; [exact Hm|].
  destruct (fft_output_order_coordinates (dimension 10) _ HN Hm)
    as [(self' & Hset & HX) _].
  exists self'. split; [exact Hset|]. rewrite HX. reflexivity.
Defined.

(** For five points the code gives [0, 1, 2, -2, -1]; the sequence the
    specification words, [0, 1, 2, -(5-2), ..., -1], has six entries. *)
Lemma fft_order_spec_formula_fails_for_five :
  let run := FFT_output_order_setter (VBool true) (dimension 5) in
  let claimed := index_times (spec_fft_index 5) (mkQuantity (Fin 1) second) in
  fst run = Ok tt
  /\ values (_coordinates (snd run))
     = [Fin 0; Fin 1; Fin 2; Fin (-2); Fin (-1)]
  /\ values claimed = [Fin 0; Fin 1; Fin 2; Fin (-3); Fin (-2); Fin (-1)]
  /\ _coordinates (snd run) <> claimed.
Proof.
  cbv zeta.
  assert (Hrun : values (_coordinates
                   (snd (FFT_output_order_setter (VBool true) (dimension 5))))
                 = [Fin 0; Fin 1; Fin 2; Fin (-2); Fin (-1)]) by reflexivity.
  assert (Hspec : values (index_times (spec_fft_index 5)
                            (mkQuantity (Fin 1) second))
                  = [Fin 0; Fin 1; Fin 2; Fin (-3); Fin (-2); Fin (-1)])
    by reflexivity.
  split; [reflexivity|]. split; [exact Hrun|]. split; [exact Hspec|].
  intros Heq.
  apply (f_equal (fun X => List.length (values X))) in Heq.
  vm_compute in Heq. discriminate Heq.
Qed.



(** Reducing the count of five stored values to three. *)
Lemma number_of_points_setter_run :
  1 <= 3 < 5
  /\ exists w',
      Facade.number_of_points_setter (VInt 3) arbitrary5 = (Ok tt, w')
      /\ Facade.number_of_points (this w') = Ok (AVal (VInt 3))
      /\ Facade.values_getter (this w') = Ok (AVal (VList five)).
Proof.
  split; [lia|].
  destruct (number_of_points_setter_keeps_values arbitrary5 five 5 3)
    as [Hlt _]; [discriminate|reflexivity|reflexivity|].
  destruct Hlt as (w' & Hset & _ & _ & Hn & Hv); [simpl; lia|].
  exists w'. by split; [exact Hset|split].
Defined.

(** The stored values are not cut to the first three; and with the
    count at three, the count four is refused although five values are
    stored. *)
Lemma count_reduction_keeps_all_values :
  let run := Facade.number_of_points_setter (VInt 3) arbitrary5 in
  fst run = Ok tt
  /\ Facade.values_getter (this (snd run)) = Ok (AVal (VList five))
  /\ Facade.values_getter (this (snd run))
     <> Ok (AVal (VList (take 3 five)))
  /\ Facade.number_of_points_setter (VInt 4) (snd run)
     = (Raise ValueError, snd run).
Proof.
  cbv zeta.
  assert (Hv : Facade.values_getter
                 (this (snd (Facade.number_of_points_setter (VInt 3)
                               arbitrary5)))
               = Ok (AVal (VList five))) by reflexivity.
  split; [reflexivity|]. split; [exact Hv|]. split; [|reflexivity].
  rewrite Hv. unfold five. simpl take. discriminate.
Qed.

(** C6.  Assigning the increment "0 s" to ten points of 1 s does not
    raise: the zero increment is stored and every coordinate becomes
    zero. *)
Theorem zero_increment_is_accepted :
  increment_setter (VStr (py "0 s")) (dimension 10)
  = (Ok tt,
     with_coordinates (mkArray (repeat (Fin 0) 10) second)
       (with_increment (mkQuantity (Fin 0) second) (dimension 10))).
Proof. reflexivity. Qed.

(** C7.  Assigning the period "0 s" stores a period of value zero: the
    setter does not coerce it to infinity as the constructor does. *)
Theorem zero_period_is_stored :
  inherited (period_setter (VStr (py "0 s"))) (dimension 10)
  = (Ok tt,
     with_base (with_period (mkQuantity (Fin 0) second) (base (dimension 10)))
       (dimension 10)).
Proof. reflexivity. Qed.



(** The accessors on the arbitrarily sampled dimension of five values. *)
Lemma reciprocal_coordinates_run :
  Facade.variable_type (Facade.gcv (this arbitrary5))
  = "Arbitrarily sampled grid controlled variable"
  /\ Facade.reciprocal_coordinates (this arbitrary5) = Raise AttributeError
  /\ Facade.absolute_coordinates (this arbitrary5)
     = Ok (mkArray [Fin 1; Fin 2; Fin 5; Fin 7; Fin 9] second).
Proof.
  split; [reflexivity|].
  pose proof (reciprocal_coordinates_linear_only (this arbitrary5)) as Hthm.
  cbv zeta in Hthm. destruct Hthm as [Harb _].
  destruct (Harb eq_refl) as [Hrc [Habs _]].
  split; [exact Hrc|]. rewrite Habs. reflexivity.
Defined.

(** A period of one blank. *)
Lemma whitespace_period_run :
  forallb isspace (py " ") = true
  /\ period_setter (VStr (py " ")) (base (dimension 10))
     = (Raise IndexError, base (dimension 10))
  /\ Facade.period_setter (VStr (py " ")) arbitrary5
     = (Raise IndexError, arbitrary5).
Proof.
  assert (Hs : forallb isspace (py " ") = true) by reflexivity.
  destruct (whitespace_period_raises_IndexError (py " ") Hs)
    as (Hbase & Hfacade & _).
  split; [exact Hs|]. split; [apply Hbase|].
  apply Hfacade. reflexivity.
Defined.

End Runs.

(** * Further properties *)

(** ** Dimension indices of [numpy_wrapper] *)

Section DimensionIndices.
Import NumpyWrapper.

Lemma correct_index_in_range (d i : Z) :
  - d <= i < d ->
  _correct_index (VInt i) d = Ok (-1 - i mod d).
Proof.
  intros Hi. unfold _correct_index. cbn [isinstance_int].
  destruct (Z.ltb_spec i 0) as [Hneg|Hpos].
  - destruct (Z.gtb_spec (i + d) d) as [|_]; [lia|].
    do 2 f_equal. apply Z.mod_unique with (-1); lia.
  - destruct (Z.gtb_spec i d) as [|_]; [lia|].
    by rewrite Z.mod_small by lia.
Qed.

(** X1.  For a list or a tuple of integers that all lie in [-d, d),
    [_check_dimension_indices] returns, in order, the axis
    [-1 - (i mod d)] for each index [i]: one result per index, each in
    [-d, -1], and [-r - 1] gives the normalised index back. *)
Theorem check_dimension_indices_in_range (d : Z) (l : list Z) :
  Forall (fun i => - d <= i < d) l ->
  let axes := List.map (fun i => -1 - i mod d) l in
  _check_dimension_indices d (Object (VList (List.map VInt l))) = Ok axes
  /\ _check_dimension_indices d (Tuple (List.map VInt l)) = Ok axes
  /\ Forall (fun r => - d <= r <= -1) axes
  /\ List.map (fun r => - r - 1) axes = List.map (fun i => i mod d) l.
Proof.
  intros Hl axes.
  assert (Hmap : mapM (fun item => _correct_index item d) (List.map VInt l)
                 = Ok axes).
  { unfold axes. induction Hl as [|i l Hi Hl IH]; [done|].
    cbn -[_correct_index Z.modulo].
    rewrite correct_index_in_range by done.
    cbn -[_correct_index Z.modulo] in IH |- *. by rewrite IH. }
  split; [exact Hmap|]. split; [exact Hmap|]. split.
  - unfold axes. clear Hmap.
    induction Hl as [|i l Hi Hl IH]; cbn -[Z.modulo]; constructor; [|done].
    pose proof (Z.mod_pos_bound i d). lia.
  - unfold axes. rewrite List.map_map. apply List.map_ext. intros i. lia.
Qed.

(** X2.  An [index] that is neither an integer nor a list, tuple or
    array does not get the [TypeError] the last branch is written to
    raise: building its message reads the unbound local [i], so the
    call fails with [UnboundLocalError]. *)
Theorem check_dimension_indices_other_object (d : Z) (v : val) :
  isinstance_int v = None ->
  (forall items, v <> VList items) ->
  _check_dimension_indices d (Object v) = Raise UnboundLocalError.
Proof.
  intros Hint Hlist. unfold _check_dimension_indices.
  destruct v; try done. by destruct (Hlist l).
Qed.

(** X3.  The bound test [i > d] lets through the index [d] itself and,
    after the shift by [d], every index below [-d]: the axis returned
    for them lies outside [-d, -1].  Indices above [d] raise
    [IndexError]. *)
Theorem check_dimension_indices_bounds (d i : Z) :
  0 <= d ->
  (i = d \/ i < - d ->
   exists r, _check_dimension_indices d (Object (VInt i)) = Ok [r]
             /\ ~ (- d <= r <= -1))
  /\ (d < i ->
      _check_dimension_indices d (Object (VInt i)) = Raise IndexError).
Proof.
  intros Hd. unfold _check_dimension_indices, _correct_index.
  cbn [isinstance_int]. split.
  - intros [->|Hi].
    + destruct (Z.ltb_spec d 0) as [|_]; [lia|].
      destruct (Z.gtb_spec d d) as [|_]; [lia|].
      eexists. split; [reflexivity|]. lia.
    + destruct (Z.ltb_spec i 0) as [_|]; [|lia].
      destruct (Z.gtb_spec (i + d) d) as [|_]; [lia|].
      eexists. split; [reflexivity|]. lia.
  - intros Hi.
    destruct (Z.ltb_spec i 0) as [|_]; [lia|].
    by destruct (Z.gtb_spec i d) as [_|]; [|lia].
Qed.

End DimensionIndices.

(** ** Linearly spaced dimensions *)

Lemma arange_cons (a b : Z) : a < b -> arange a b = a :: arange (a + 1) b.
Proof.
  intros Hab. unfold arange.
  replace (Z.to_nat (b - a)) with (S (Z.to_nat (b - (a + 1)))) by lia.
  cbn [seq List.map]. f_equal; [lia|].
  rewrite <- seq_shift, List.map_map. apply List.map_ext. intros i. lia.
Qed.

Lemma arange_nil (a b : Z) : b <= a -> arange a b = [].
Proof. intros Hab. unfold arange. by replace (Z.to_nat (b - a)) with 0%nat by lia. Qed.

Lemma arange_app (a b c : Z) :
  a <= b <= c -> arange a c = arange a b ++ arange b c.
Proof.
  intros [Hab Hbc]. remember (Z.to_nat (b - a)) as n eqn:Hn.
  revert a Hab Hn. induction n as [|n IH]; intros a Hab Hn.
  - assert (a = b) as -> by lia. by rewrite (arange_nil b b).
  - rewrite (arange_cons a c), (arange_cons a b) by lia.
    cbn [app]. f_equal. apply IH; lia.
Qed.

Lemma NoDup_arange (a b : Z) : NoDup (arange a b).
Proof.
  unfold arange. change (List.map ?f ?l) with (f <$> l).
  apply NoDup_fmap_2; [|apply NoDup_seq].
  intros i j Hij. lia.
Qed.

Section LinearSpacing.
Context `{QuantityLib} `{Numpy} {unit_helpers : UnitHelpers}.
Import IndependentVariables.

(** X4.  For a count [N >= 0] the index array of the FFT order has [N]
    entries without repetition and is a rearrangement of the contiguous
    range from [-⌊N/2⌋] up to [⌊(N-1)/2⌋]: no index is lost or
    doubled by the two slice assignments. *)
Theorem fft_index_is_rearranged_range (N : Z) :
  0 <= N ->
  exists idx,
    fft_index N = Ok idx
    /\ List.length idx = Z.to_nat N
    /\ NoDup idx
    /\ Permutation idx (arange (- (N / 2)) ((N - 1) / 2 + 1)).
Proof.
  intros HN. eexists. split; [by apply fft_index_eq|].
  assert (Hn : 0 <= (N - 1) / 2 + 1 /\ (N - 1) / 2 + 1 + N / 2 = N
               /\ 0 <= N / 2).
  { Z.div_mod_to_equations. lia. }
  rewrite (arange_app (- (N / 2)) 0 ((N - 1) / 2 + 1)) by lia.
  split; [|split].
  - rewrite length_app, !arange_length. lia.
  - rewrite (Permutation_app_comm (arange 0 _)).
    rewrite <- (arange_app (- (N / 2)) 0 ((N - 1) / 2 + 1)) by lia.
    apply NoDup_arange.
  - apply Permutation_app_comm.
Qed.

End LinearSpacing.

Section LinearSpacingSetters.
Context `{QuantityLib} `{Numpy} {unit_helpers : UnitHelpers}.
Import IndependentVariables.

(** X5.  The coordinates computed by [_get_coordinates] do not depend on
    what the buffer obtained from [np.empty] held: with any two
    contents of uninitialised memory the call has the same outcome and
    leaves the same object. *)
Theorem get_coordinates_ignores_buffer (n1 n2 : Numpy)
    (self : DimensionWithLinearSpacing) :
  @_get_coordinates _ n1 self = @_get_coordinates _ n2 self.
Proof.
  unfold _get_coordinates. run.
  destruct (to (_increment self) (_unit (base self))) as [m|e]; [|done].
  destruct (_fft_output_order self); [|done].
  destruct (Z.ltb_spec (_number_of_points self) 0) as [Hneg|Hpos].
  - unfold fft_index, np_empty.
    by destruct (Z.ltb_spec (_number_of_points self) 0); [|lia].
  - by rewrite (@fft_index_eq n1), (@fft_index_eq n2).
Qed.

(** X6.  Switching the FFT order on and off again gives the natural
    order back: for a count [N >= 0] and an increment [m] the cache
    holds the multiples of [m] by 0, 1, ..., N-1 afterwards, which is
    also what switching the flag off alone produces. *)
Theorem fft_output_order_on_then_off (self : DimensionWithLinearSpacing)
    (m : Qty) :
  0 <= _number_of_points self ->
  to (_increment self) (_unit (base self)) = Ok m ->
  (FFT_output_order_setter (VBool true);;
   FFT_output_order_setter (VBool false)) self
  = (Ok tt,
     with_coordinates (index_times (arange 0 (_number_of_points self)) m)
       (with_fft_output_order false self))
  /\ (FFT_output_order_setter (VBool true);;
      FFT_output_order_setter (VBool false)) self
     = FFT_output_order_setter (VBool false) self.
Proof.
  intros HN Hm.
  assert (Hoff : FFT_output_order_setter (VBool false) self
                 = (Ok tt,
                    with_coordinates
                      (index_times (arange 0 (_number_of_points self)) m)
                      (with_fft_output_order false self))).
  { unfold FFT_output_order_setter, _get_coordinates.
    cbn [isinstance_bool]. run. cbn. by rewrite Hm. }
  rewrite Hoff.
  assert (Hboth : (FFT_output_order_setter (VBool true);;
                   FFT_output_order_setter (VBool false)) self
                  = (Ok tt,
                     with_coordinates
                       (index_times (arange 0 (_number_of_points self)) m)
                       (with_fft_output_order false self))); [|done].
  unfold FFT_output_order_setter, _get_coordinates.
  cbn [isinstance_bool]. run. cbn.
  rewrite Hm, fft_index_eq by done. cbn. by rewrite Hm.
Qed.

(** X7.  The constructor stores the count unchecked.  With a negative
    count the natural order yields an empty coordinate array, while
    switching the FFT order on raises [ValueError] (from [np.empty])
    after the flag has been written: the flag reads true and the cache
    is the old one. *)
Theorem fft_output_order_negative_count (self : DimensionWithLinearSpacing)
    (m : Qty) :
  _number_of_points self < 0 ->
  to (_increment self) (_unit (base self)) = Ok m ->
  FFT_output_order_setter (VBool true) self
  = (Raise ValueError, with_fft_output_order true self)
  /\ FFT_output_order_setter (VBool false) self
     = (Ok tt,
        with_coordinates (mkArray [] (unit_of m))
          (with_fft_output_order false self)).
Proof.
  intros HN Hm. unfold FFT_output_order_setter, _get_coordinates.
  cbn [isinstance_bool]. run. cbn. rewrite Hm. split.
  - unfold fft_index, np_empty.
    by destruct (Z.ltb_spec (_number_of_points self) 0); [|lia].
  - by rewrite arange_nil by lia.
Qed.

(** X8.  An assignment to one of the attributes of
    [BaseIndependentVariable] (reference offset, origin offset, period,
    label, quantity) or a call of [_to] that raises leaves the object as
    it was: every check comes before the first slot write. *)
Theorem base_setters_fail_atomically (value equivalencies : val)
    (m : M BaseIndependentVariable unit) (e : exn)
    (self self' : BaseIndependentVariable) :
  In m [reference_offset_setter value; origin_offset_setter value;
        period_setter value; label_setter value; quantity_setter value;
        _to value equivalencies] ->
  m self = (Raise e, self') ->
  self' = self.
Proof.
  intros Hm.
  repeat (destruct Hm as [<-|Hm]); [..|destruct Hm].
  - unfold reference_offset_setter.
    destruct (isinstance_str value); run; [|congruence].
    destruct (_assign_and_check_unit_consistency _ _); congruence.
  - unfold origin_offset_setter.
    destruct (isinstance_str value); run; [|congruence].
    destruct (_assign_and_check_unit_consistency _ _); congruence.
  - unfold period_setter.
    destruct (isinstance_str value); run; [|congruence].
    destruct (first_token _); [|congruence].
    destruct (in_list _ _); run; [congruence|].
    destruct (_check_value_object _ _); congruence.
  - unfold label_setter. run. destruct (check_label value); congruence.
  - unfold quantity_setter. run. congruence.
  - unfold _to.
    destruct (isinstance_str value); run; [|congruence].
    destruct (string_to_unit _); [|congruence].
    destruct (_check_unit_consistency _ _); congruence.
Qed.

(** X9.  A failing assignment to [increment] never touches the cached
    coordinates, the count, the flag or the inherited slots.  The object
    is unchanged when the value is rejected (not a string, refused by
    the unit check, negative); when the failure comes from the
    recomputation that follows the slot write, the new increment stays
    stored beside the old cache. *)
Theorem increment_setter_failure (value : val) (e : exn)
    (self self' : DimensionWithLinearSpacing) :
  increment_setter value self = (Raise e, self') ->
  _coordinates self' = _coordinates self
  /\ (self' = self
      \/ exists v,
           _assign_and_check_unit_consistency value
             (Some (_unit (base self))) = Ok v
           /\ is_negative (value_of v) = false
           /\ self' = with_increment v self
           /\ _get_coordinates (with_increment v self) = (Raise e, self')).
Proof.
  unfold increment_setter.
  destruct (isinstance_str value); run; [|intros [= <- <-]; by auto].
  destruct (_assign_and_check_unit_consistency _ _) as [v|] eqn:Hv;
    [|intros [= <- <-]; by auto].
  destruct (is_negative (value_of v)) eqn:Hneg;
    [intros [= <- <-]; by auto|].
  unfold _get_coordinates at 1. run. cbn.
  destruct (to v (_unit (base self))) as [mv|] eqn:Hto.
  - destruct (_fft_output_order self) eqn:Hflag; [|done].
    destruct (fft_index (_number_of_points self)) eqn:Hidx; [done|].
    intros [= <- <-]. split; [done|]. right. exists v.
    repeat split; try done.
    unfold _get_coordinates. run. cbn. by rewrite Hto, Hflag, Hidx.
  - intros [= <- <-]. split; [done|]. right. exists v.
    repeat split; try done.
    unfold _get_coordinates. run. cbn. by rewrite Hto.
Qed.

End LinearSpacingSetters.

Section LinearSpacingObject.
Context `{QuantityLib} `{Numpy} {unit_helpers : UnitHelpers}.
Import IndependentVariables.

Lemma set_parameters_inv
    (ro oo q p l : val) (u : Unit) (self : BaseIndependentVariable) :
  _set_parameters ro oo q p l u = Ok self ->
  _unit self = u /\ _equivalencies self = None
  /\ _check_value_object ro u = Ok (_reference_offset self)
  /\ _check_value_object oo u = Ok (_origin_offset self)
  /\ _check_quantity q u = Ok (_quantity self)
  /\ check_label l = Ok (_label self).
Proof.
  unfold _set_parameters. run.
  destruct (_check_value_object ro u); [|done].
  destruct (_check_value_object oo u); [|done].
  destruct (_check_value_object p u) as [pv|]; [|done].
  destruct (_check_quantity q u); [|done].
  destruct (check_label l); [|done].
  by intros [= <-].
Qed.

(** X10.  What a successfully constructed linear dimension looks like:
    the count is the argument as given, the unit is the one of the
    parsed increment and the reciprocal unit its inverse, neither period
    is zero, [_equivalencies] is unassigned, the cache is the index
    array of the chosen order times the increment, and the FFT order
    can only be on if the count is not negative. *)
Theorem linear_init_postconditions
    (N : Z)
    (inc ro oo q p l fft rro roo rq rl rp : val)
    (self : DimensionWithLinearSpacing) :
  DimensionWithLinearSpacing_init N inc ro oo q p l fft rro roo rq rl rp
  = Ok self ->
  exists m,
    _assign_and_check_unit_consistency inc None = Ok (_increment self)
    /\ _check_and_assign_bool fft = Ok (_fft_output_order self)
    /\ to (_increment self) (unit_of (_increment self)) = Ok m
    /\ _number_of_points self = N
    /\ _unit (base self) = unit_of (_increment self)
    /\ _unit (reciprocal self) = unit_inverse (unit_of (_increment self))
    /\ is_zero (value_of (_period (base self))) = false
    /\ is_zero (value_of (_period (reciprocal self))) = false
    /\ _equivalencies (base self) = None
    /\ _equivalencies (reciprocal self) = None
    /\ _coordinates self = index_times (index_array self) m
    /\ (_fft_output_order self = true -> 0 <= N).
Proof.
  unfold DimensionWithLinearSpacing_init, BaseIndependentVariable_init.
  cbn [mbind result_bind].
  destruct (_assign_and_check_unit_consistency inc None) as [i|]; [|done].
  cbn [mbind result_bind].
  destruct (_check_and_assign_bool fft) as [f|]; [|done].
  cbn [mbind result_bind].
  destruct (_set_parameters ro oo q p l (unit_of i)) as [b|] eqn:Hb; [|done].
  cbn [mbind result_bind].
  destruct (_set_parameters rro roo rq rp rl (unit_inverse (unit_of i)))
    as [r|] eqn:Hr; [|done].
  cbn [mbind result_bind].
  destruct (_get_coordinates _) as [[[]|e] s] eqn:Hs; [|done].
  intros [= <-].
  pose proof (set_parameters_period_nonzero _ _ _ _ _ _ _ Hb) as Hpb.
  pose proof (set_parameters_period_nonzero _ _ _ _ _ _ _ Hr) as Hpr.
  apply set_parameters_inv in Hb as (Hub & Heb & _).
  apply set_parameters_inv in Hr as (Hur & Her & _).
  pose proof Hs as Hs'.
  apply get_coordinates_inv in Hs as (m & Hm & ->). cbn in Hm.
  exists m. cbn. rewrite Hub in Hm.
  repeat split; try done.
  intros ->. destruct (Z.lt_ge_cases N 0) as [Hlt|Hge]; [|done].
  unfold _get_coordinates in Hs'. revert Hs'. run. cbn.
  rewrite Hub, Hm, fft_index_negative by done. done.
Qed.

Lemma quantitative_dictionary_lookup (self : BaseIndependentVariable)
    (k : string) :
  _get_quantitative_dictionary self !! k
  = if String.eqb k "label"
    then if not_blank (label self) then Some (VStr (label self)) else None
    else if String.eqb k "period"
    then if finite_period (value_of (_period self))
         then Some (VStr (value_object_format (_period self))) else None
    else if String.eqb k "quantity"
    then if named_quantity (_quantity self)
         then Some (_quantity self) else None
    else if String.eqb k "origin_offset"
    then if negb (is_zero (value_of (_origin_offset self)))
         then Some (VStr (value_object_format (_origin_offset self)))
         else None
    else if String.eqb k "reference_offset"
    then if negb (is_zero (value_of (_reference_offset self)))
         then Some (VStr (value_object_format (_reference_offset self)))
         else None
    else None.
Proof.
  unfold _get_quantitative_dictionary. cbv zeta.
  repeat match goal with
         | |- context [String.eqb k ?s] =>
             destruct (String.eqb_spec k s) as [->|?]
         end;
    repeat match goal with
           | |- context [if ?c then <[_ := _]> _ else _] => destruct c
           end;
    repeat first [ rewrite lookup_insert_eq
                 | rewrite lookup_insert_ne by congruence
                 | rewrite lookup_empty ];
    reflexivity.
Qed.

Lemma quantitative_dictionary_keys (self : BaseIndependentVariable)
    (k : string) :
  is_Some (_get_quantitative_dictionary self !! k) ->
  In k ["reference_offset"; "origin_offset"; "quantity"; "period"; "label"].
Proof.
  intros [v Hk]. rewrite quantitative_dictionary_lookup in Hk.
  repeat match type of Hk with
         | context [String.eqb k ?s] =>
             destruct (String.eqb_spec k s) as [->|?]
         end; cbn; try tauto.
  discriminate.
Qed.

(** X11.  The dictionary of [_get_quantitative_dictionary] is empty
    exactly when both offsets are zero, the quantity is [None],
    "unknown" or "dimensionless", the period is zero or
    infinite, and the label is blank; its keys are among
    [reference_offset], [origin_offset], [quantity], [period] and
    [label]. *)
Theorem quantitative_dictionary_empty_iff (self : BaseIndependentVariable) :
  (_get_quantitative_dictionary self = ∅
   <-> is_zero (value_of (_reference_offset self)) = true
       /\ is_zero (value_of (_origin_offset self)) = true
       /\ named_quantity (_quantity self) = false
       /\ finite_period (value_of (_period self)) = false
       /\ not_blank (label self) = false)
  /\ (forall k, is_Some (_get_quantitative_dictionary self !! k) ->
        In k ["reference_offset"; "origin_offset"; "quantity"; "period";
              "label"]).
Proof.
  split; [split|].
  - intros Hempty.
    pose proof (quantitative_dictionary_lookup self "reference_offset") as H1.
    pose proof (quantitative_dictionary_lookup self "origin_offset") as H2.
    pose proof (quantitative_dictionary_lookup self "quantity") as H3.
    pose proof (quantitative_dictionary_lookup self "period") as H4.
    pose proof (quantitative_dictionary_lookup self "label") as H5.
    rewrite Hempty, lookup_empty in H1, H2, H3, H4, H5.
    cbn in H1, H2, H3, H4, H5.
    repeat split.
    + by destruct (is_zero (value_of (_reference_offset self))).
    + by destruct (is_zero (value_of (_origin_offset self))).
    + by destruct (named_quantity _).
    + by destruct (finite_period _).
    + by destruct (not_blank _).
  - intros (H1 & H2 & H3 & H4 & H5). apply map_eq. intros k.
    rewrite quantitative_dictionary_lookup, H1, H2, H3, H4, H5, lookup_empty.
    cbn. by repeat destruct (String.eqb k _).
  - apply quantitative_dictionary_keys.
Qed.

(** X12.  The dictionary of a linear dimension always carries [type]
    (the string "linear_spacing"), [number_of_points] and
    [increment]; the entries of [_get_quantitative_dictionary] are
    merged in unchanged; [FFT_output_order] is present (as [True]) only
    when the flag is set, and [reciprocal] only when the reciprocal
    variable has something to report. *)
Theorem linear_python_dictionary (self : DimensionWithLinearSpacing) :
  let d := _get_python_dictionary self in
  d !! "type" = Some (VStr (py "linear_spacing"))
  /\ d !! "number_of_points" = Some (VInt (_number_of_points self))
  /\ d !! "increment" = Some (VStr (value_object_format (_increment self)))
  /\ d !! "FFT_output_order"
     = (if _fft_output_order self then Some (VBool true) else None)
  /\ d !! "reciprocal"
     = (if Nat.eqb (size (_get_quantitative_dictionary (reciprocal self))) 0
        then None
        else Some (VDict (_get_quantitative_dictionary (reciprocal self))))
  /\ (forall k,
        In k ["reference_offset"; "origin_offset"; "quantity"; "period";
              "label"] ->
        d !! k = _get_quantitative_dictionary (base self) !! k).
Proof.
  cbv zeta. unfold _get_python_dictionary, FFT_output_order, increment.
  cbv zeta.
  set (qd := _get_quantitative_dictionary (base self)).
  set (rd := _get_quantitative_dictionary (reciprocal self)).
  assert (Hq : forall k,
             ~ In k ["reference_offset"; "origin_offset"; "quantity";
                     "period"; "label"] -> qd !! k = None).
  { intros k Hk. destruct (qd !! k) eqn:Hqk; [|done].
    exfalso. apply Hk.
    by apply (quantitative_dictionary_keys (base self)). }
  assert (Hfix : forall k v (m : gmap string val),
             qd !! k = None -> m !! k = Some v ->
             (if _fft_output_order self
              then <["FFT_output_order" := VBool true]> (qd ∪ m)
              else qd ∪ m) !! k = Some v
             \/ k = "FFT_output_order").
  { intros k v m Hk Hm. destruct (decide (k = "FFT_output_order")); [by right|].
    left. destruct (_fft_output_order self);
      [rewrite lookup_insert_ne by done|];
      by rewrite lookup_union_r. }
  repeat split.
  - destruct (Nat.eqb (size rd) 0);
      [|rewrite lookup_insert_ne by done];
      (edestruct Hfix as [->|]; [| |reflexivity|done]);
      [apply Hq; cbn; intuition discriminate|done
      |apply Hq; cbn; intuition discriminate|done].
  - destruct (Nat.eqb (size rd) 0);
      [|rewrite lookup_insert_ne by done];
      (edestruct Hfix as [->|]; [| |reflexivity|done]);
      [apply Hq; cbn; intuition discriminate
      |by rewrite lookup_insert_ne, lookup_insert_eq
      |apply Hq; cbn; intuition discriminate
      |by rewrite lookup_insert_ne, lookup_insert_eq].
  - destruct (Nat.eqb (size rd) 0);
      [|rewrite lookup_insert_ne by done];
      (edestruct Hfix as [->|]; [| |reflexivity|done]);
      [apply Hq; cbn; intuition discriminate
      |by rewrite lookup_insert_eq
      |apply Hq; cbn; intuition discriminate
      |by rewrite lookup_insert_eq].
  - destruct (Nat.eqb (size rd) 0);
      [|rewrite lookup_insert_ne by done];
      (destruct (_fft_output_order self);
       [by rewrite lookup_insert_eq|]);
      (rewrite lookup_union_r by (apply Hq; cbn; intuition discriminate));
      by rewrite !lookup_insert_ne.
  - destruct (Nat.eqb (size rd) 0); [|by rewrite lookup_insert_eq].
    destruct (_fft_output_order self);
      [rewrite lookup_insert_ne by done|];
      (rewrite lookup_union_r by (apply Hq; cbn; intuition discriminate));
      by rewrite !lookup_insert_ne.
  - intros k Hk.
    assert (Hne : k <> "reciprocal" /\ k <> "FFT_output_order"
                  /\ k <> "increment" /\ k <> "number_of_points"
                  /\ k <> "type").
    { cbn in Hk. repeat split; intros ->; intuition discriminate. }
    destruct Hne as (? & ? & ? & ? & ?).
    destruct (Nat.eqb (size rd) 0);
      [|rewrite lookup_insert_ne by done];
      (destruct (_fft_output_order self);
       [rewrite lookup_insert_ne by done|]);
      (destruct (qd !! k) eqn:Hqk;
       [by erewrite lookup_union_Some_l
       |rewrite lookup_union_r by done;
        by rewrite !lookup_insert_ne, lookup_empty]).
Qed.

End LinearSpacingObject.

(** ** Arbitrarily sampled and labeled dimensions *)

Lemma mapM_result_length {A B} (f : A -> result B) (l : list A)
    (k : list B) :
  mapM (M := result) f l = Ok k -> List.length k = List.length l.
Proof.
  revert k. induction l as [|x l IH]; intros k; cbn.
  - by intros [= <-].
  - destruct (f x); cbn; [|done].
    destruct (mapM f l) as [k'|]; cbn; [|done].
    intros [= <-]. cbn. f_equal. by apply IH.
Qed.

Section OtherDimensions.
Context `{QuantityLib} {unit_helpers : UnitHelpers}.
Import IndependentVariables.

(** X13.  An assignment to [values] of an arbitrarily sampled dimension
    either raises and leaves the object as it was, or stores the list as
    given, one coordinate per entry in the unit of the dimension, and a
    count equal to the length of the list; the inherited slots and the
    reciprocal variable are not touched. *)
Theorem arbitrary_values_setter_outcome (array : list val)
    (r : result unit) (self self' : ArbitrarySpacing.DimensionWithArbitrarySpacing) :
  ArbitrarySpacing.values_setter array self = (r, self') ->
  match r with
  | Ok _ =>
      ArbitrarySpacing.values self' = array
      /\ ArbitrarySpacing._number_of_points self'
         = Z.of_nat (List.length array)
      /\ List.length (values (ArbitrarySpacing._coordinates self'))
         = List.length array
      /\ array_unit (ArbitrarySpacing._coordinates self')
         = _unit (ArbitrarySpacing.base self)
      /\ ArbitrarySpacing.base self' = ArbitrarySpacing.base self
      /\ ArbitrarySpacing.reciprocal self' = ArbitrarySpacing.reciprocal self
  | Raise _ => self' = self
  end.
Proof.
  unfold ArbitrarySpacing.values_setter, ArbitrarySpacing._get_coordinates.
  run.
  destruct (mapM _ array) as [k|e] eqn:Hk; intros [= <- <-]; [|done].
  apply mapM_result_length in Hk. unfold array_size. cbn.
  by rewrite Hk.
Qed.

(** X14.  The constructor of an arbitrarily sampled dimension reads
    [_values[0]] first: an empty list raises [IndexError] whatever the
    other arguments are.  The setter has no such read: assigning the
    empty list to [values] of an existing dimension succeeds and leaves
    a dimension with count 0 and no coordinates. *)
Theorem arbitrary_empty_values
    (ro oo q p l rro roo rq rl rp : val)
    (self : ArbitrarySpacing.DimensionWithArbitrarySpacing) :
  ArbitrarySpacing.DimensionWithArbitrarySpacing_init
    [] ro oo q p l rro roo rq rl rp = Raise IndexError
  /\ ArbitrarySpacing.values_setter [] self
     = (Ok tt,
        ArbitrarySpacing.mkArbitrary
          (ArbitrarySpacing.base self) (ArbitrarySpacing.reciprocal self)
          0 [] (mkArray [] (_unit (ArbitrarySpacing.base self)))).
Proof. split; reflexivity. Qed.

(** X15.  A successfully constructed arbitrarily sampled dimension has
    at least one value, a count equal to the number of values, one
    coordinate per value, the unit of its first value, a reciprocal
    variable in the inverse unit, and no zero period. *)
Theorem arbitrary_init_postconditions
    (_values : list val)
    (ro oo q p l rro roo rq rl rp : val)
    (self : ArbitrarySpacing.DimensionWithArbitrarySpacing) :
  ArbitrarySpacing.DimensionWithArbitrarySpacing_init
    _values ro oo q p l rro roo rq rl rp = Ok self ->
  exists first rest fq,
    _values = first :: rest
    /\ _assign_and_check_unit_consistency first None = Ok fq
    /\ ArbitrarySpacing.values self = _values
    /\ ArbitrarySpacing._number_of_points self
       = Z.of_nat (List.length _values)
    /\ List.length (values (ArbitrarySpacing._coordinates self))
       = List.length _values
    /\ _unit (ArbitrarySpacing.base self) = unit_of fq
    /\ array_unit (ArbitrarySpacing._coordinates self) = unit_of fq
    /\ _unit (ArbitrarySpacing.reciprocal self) = unit_inverse (unit_of fq)
    /\ is_zero (value_of (_period (ArbitrarySpacing.base self))) = false
    /\ is_zero (value_of (_period (ArbitrarySpacing.reciprocal self)))
       = false.
Proof.
  unfold ArbitrarySpacing.DimensionWithArbitrarySpacing_init,
    BaseIndependentVariable_init.
  destruct _values as [|first rest]; [done|]. cbn [mbind result_bind].
  destruct (_assign_and_check_unit_consistency first None) as [fq|]
    eqn:Hfq; [|done].
  cbn [mbind result_bind].
  destruct (_set_parameters ro oo q p l (unit_of fq)) as [b|] eqn:Hb;
    [|done].
  cbn [mbind result_bind].
  destruct (_set_parameters rro roo rq rp rl (unit_inverse (unit_of fq)))
    as [rv|] eqn:Hr; [|done].
  cbn [mbind result_bind].
  destruct (ArbitrarySpacing._get_coordinates _ _) as [[[]|e] s] eqn:Hs;
    [|done].
  intros [= <-].
  pose proof (set_parameters_period_nonzero _ _ _ _ _ _ _ Hb) as Hpb.
  pose proof (set_parameters_period_nonzero _ _ _ _ _ _ _ Hr) as Hpr.
  apply set_parameters_inv in Hb as (Hub & _).
  apply set_parameters_inv in Hr as (Hur & _).
  revert Hs. unfold ArbitrarySpacing._get_coordinates. run.
  destruct (mapM _ (first :: rest)) as [k|] eqn:Hk; [|done].
  intros [= <-]. apply mapM_result_length in Hk.
  exists first, rest, fq. unfold array_size. cbn. cbn in Hk.
  rewrite Hk. by repeat split.
Qed.

(** X16.  An assignment to [values] of a labeled dimension with an
    object that has no length raises [TypeError] after the new object
    has been stored: [values] reads the new object while the count is
    the old one. *)
Theorem labels_values_setter_unsized (values : val)
    (self : Labels.DimensionWithLabels) :
  len values = None ->
  exists self',
    Labels.values_setter values self = (Raise TypeError, self')
    /\ Labels.values self' = values
    /\ Labels._coordinates self' = values
    /\ Labels._number_of_points self' = Labels._number_of_points self
    /\ Labels.DimensionWithLabels_init values (Labels._label self)
         (Labels._reverse self) = Raise TypeError.
Proof.
  intros Hlen. eexists.
  unfold Labels.values_setter, Labels._get_coordinates,
    Labels.DimensionWithLabels_init.
  run. rewrite Hlen. by repeat split.
Qed.

End OtherDimensions.

(** ** The facade: configuration, guards and slot writes *)

Lemma fold_insert_union (sub m0 : gmap string val) :
  map_fold (fun k v d => <[k := v]> d) m0 sub = sub ∪ m0.
Proof.
  apply (map_fold_weak_ind (fun r m => r = m ∪ m0)).
  - by rewrite (left_id_L ∅ (∪)).
  - intros i x m r _ ->. by rewrite insert_union_l.
Qed.

Lemma fold_update_key_reciprocal (subs input : gmap string val) :
  map_fold (Facade.update_key subs) Facade.defaults input !! "reciprocal"
  = Some (VDict (match input !! "reciprocal" with
                 | Some _ => subs ∪ Facade.reciprocal_defaults
                 | None => Facade.reciprocal_defaults
                 end)).
Proof.
  apply (map_fold_weak_ind (fun r m =>
    r !! "reciprocal"
    = Some (VDict (match m !! "reciprocal" with
                   | Some _ => subs ∪ Facade.reciprocal_defaults
                   | None => Facade.reciprocal_defaults
                   end)))).
  - by rewrite lookup_empty.
  - intros i x m r Hi IH. unfold Facade.update_key.
    destruct (decide (i = "reciprocal")) as [->|Hne].
    + rewrite Hi in IH. rewrite lookup_insert_eq.
      change (Facade.defaults !! "reciprocal")
        with (Some (VDict Facade.reciprocal_defaults)).
      cbn [String.eqb Ascii.eqb Bool.eqb].
      rewrite lookup_insert_eq. unfold Facade.nested.
      by rewrite IH, fold_insert_union.
    + rewrite (lookup_insert_ne m) by done.
      destruct (Facade.defaults !! i); [|done].
      destruct (String.eqb_spec i "reciprocal"); [done|].
      by rewrite lookup_insert_ne.
Qed.

Section FacadeProperties.
Context `{QuantityLib}.
Context {classes : Facade.GcvClasses} {unit_helpers : UnitHelpers}.
Context {axis_label_helpers : Facade.AxisLabel}.

Lemma mkCV_gcv (self : Facade.ControlledVariable) :
  Facade.mkCV (Facade.gcv self) = self.
Proof. by destruct self. Qed.

(** X17.  The configuration [__init__] works with has exactly the keys
    of the defaults: an input key that is not a default key is dropped.
    The nested [reciprocal] dictionary is treated differently: every
    sub-key of the input is copied into it, known or not, on top of the
    nested defaults. *)
Theorem update_defaults_keys (input d : gmap string val) :
  Facade.update_defaults input = Ok d ->
  (forall key, is_Some (d !! key) <-> is_Some (Facade.defaults !! key))
  /\ d !! "reciprocal"
     = Some (VDict (match input !! "reciprocal" with
                    | Some (VDict sub) => sub ∪ Facade.reciprocal_defaults
                    | _ => Facade.reciprocal_defaults
                    end)).
Proof.
  unfold Facade.update_defaults. intros Hd.
  assert (exists subs,
             d = map_fold (Facade.update_key subs) Facade.defaults input
             /\ match input !! "reciprocal" with
                | Some (VDict sub) => subs = sub
                | Some _ => False
                | None => True
                end) as (subs & -> & Hsubs).
  { destruct (input !! "reciprocal") as [[]|]; cbn in Hd; try done;
      injection Hd as <-; by eexists. }
  split.
  - intros key. destruct (decide (key = "reciprocal")) as [->|Hne].
    + rewrite fold_update_key_reciprocal. split; intros _; by eexists.
    + rewrite fold_update_key_lookup by done.
      by rewrite fmap_is_Some.
  - rewrite fold_update_key_reciprocal.
    destruct (input !! "reciprocal") as [[]|]; try done. by subst.
Qed.

(** X18.  On a dimension that is not quantitative the guarded setters
    (reference and origin offset, period, their reciprocal versions, and
    [to]) raise [AttributeError] before they look at the value, and the
    object is unchanged; the matching read accessors raise
    [AttributeError] as well. *)
Theorem non_quantitative_attributes_raise (value equivalencies : val)
    (w : world Facade.ControlledVariable) :
  Facade.is_quantitative_type (this w) = false ->
  (forall m,
      In m [Facade.reference_offset_setter value;
            Facade.reciprocal_reference_offset_setter value;
            Facade.origin_offset_setter value;
            Facade.reciprocal_origin_offset_setter value;
            Facade.period_setter value;
            Facade.reciprocal_period_setter value;
            Facade.to_unit value equivalencies] ->
      m w = (Raise AttributeError, w))
  /\ (forall r,
        In r [Facade.reference_offset (this w);
              Facade.reciprocal_reference_offset (this w);
              Facade.origin_offset (this w);
              Facade.reciprocal_origin_offset (this w);
              Facade.period (this w);
              Facade.reciprocal_period (this w);
              Facade.quantity (this w);
              Facade.reciprocal_quantity (this w)] ->
        r = Raise AttributeError)
  /\ Facade.absolute_coordinates (this w) = Raise AttributeError
  /\ Facade.is_quantitative (this w) = false.
Proof.
  intros Hq. split; [|split; [|split]].
  - intros m Hm.
    repeat (destruct Hm as [<-|Hm]); [..|destruct Hm];
      unfold Facade.reference_offset_setter,
        Facade.reciprocal_reference_offset_setter,
        Facade.origin_offset_setter, Facade.reciprocal_origin_offset_setter,
        Facade.period_setter, Facade.reciprocal_period_setter,
        Facade.to_unit, Facade.self_gcv;
      run; by rewrite mkCV_gcv, Hq.
  - intros r Hr.
    repeat (destruct Hr as [<-|Hr]); [..|destruct Hr];
      unfold Facade.reference_offset, Facade.reciprocal_reference_offset,
        Facade.origin_offset, Facade.reciprocal_origin_offset,
        Facade.period, Facade.reciprocal_period, Facade.quantity,
        Facade.reciprocal_quantity;
      by rewrite Hq.
  - unfold Facade.absolute_coordinates. by rewrite Hq.
  - unfold Facade.is_quantitative. by rewrite Hq.
Qed.

(** X19.  A successful assignment to [reference_offset] through the
    facade writes the slot [_reference_offset] and nothing else: the
    accessor returns the checked quantity afterwards, every other slot
    (the coordinates included) holds what it held, the variable type is
    the same and no warning is issued. *)
Theorem reference_offset_setter_writes_one_slot (s : str) (u : Unit)
    (q : Qty) (w : world Facade.ControlledVariable) :
  Facade.is_quantitative_type (this w) = true ->
  Facade.gcv_unit (Facade.gcv (this w)) = Ok u ->
  _assign_and_check_unit_consistency (VStr s) (Some u) = Ok q ->
  exists w',
    Facade.reference_offset_setter (VStr s) w = (Ok tt, w')
    /\ Facade.reference_offset (this w') = Ok (AQuantity q)
    /\ events w' = events w
    /\ Facade.variable_type (Facade.gcv (this w'))
       = Facade.variable_type (Facade.gcv (this w))
    /\ (forall name, name <> "_reference_offset" ->
          Facade.slots (Facade.gcv (this w')) !! name
          = Facade.slots (Facade.gcv (this w)) !! name).
Proof.
  intros Hq Hu Hv. eexists.
  unfold Facade.reference_offset_setter, Facade.self_gcv, Facade.on_gcv,
    Facade.set_attribute.
  cbn [isinstance_str]. run. rewrite mkCV_gcv, Hq, Hu, Hv.
  split; [reflexivity|].
  unfold Facade.reference_offset, Facade.is_quantitative_type,
    Facade.getattr in *.
  cbn. rewrite Hq, lookup_insert_eq. repeat split; try done.
  intros name Hname. by rewrite lookup_insert_ne.
Qed.

(** X20.  [to] with the unit string "ppm", padded by white space or
    not, only writes the slot [_dimensionless_unit]: the unit of the
    dimension stays, the unit parser is not consulted and the
    [equivalencies] argument is dropped. *)
Theorem to_ppm_sets_dimensionless_unit (s : str) (equivalencies : val)
    (w : world Facade.ControlledVariable) :
  Facade.is_quantitative_type (this w) = true ->
  strip s = py "ppm" ->
  Facade.to_unit (VStr s) equivalencies w
  = (Ok tt,
     mkWorld
       (Facade.mkCV
          (Facade.mkGcv (Facade.variable_type (Facade.gcv (this w)))
             (<["_dimensionless_unit" := AUnit _ppm]>
                (Facade.slots (Facade.gcv (this w))))))
       (events w)).
Proof.
  intros Hq Hs.
  unfold Facade.to_unit, Facade.self_gcv, Facade.on_gcv,
    Facade.set_attribute.
  cbn [isinstance_str]. run. by rewrite mkCV_gcv, Hq, Hs.
Qed.

(** X21.  [sampling_interval] and [fft_output_order] belong to the
    linear variant alone: on any other variable type, the arbitrarily
    sampled one included, reading them raises [AttributeError], and so
    does the assignment to [fft_output_order], which leaves the object
    unchanged. *)
Theorem linear_only_attributes (value : val)
    (w : world Facade.ControlledVariable) :
  Facade.variable_type (Facade.gcv (this w))
  <> Facade._quantitative_variable_types_0 ->
  Facade.sampling_interval (this w) = Raise AttributeError
  /\ Facade.fft_output_order (this w) = Raise AttributeError
  /\ Facade.fft_output_order_setter value w = (Raise AttributeError, w).
Proof.
  intros Hne. apply String.eqb_neq in Hne.
  unfold Facade.sampling_interval, Facade.fft_output_order,
    Facade.fft_output_order_setter, Facade.self_gcv.
  run. by rewrite Hne.
Qed.

(** X22.  An assignment to [number_of_points] of something that is not
    an integer raises [TypeError], and of an integer that is not
    positive [ValueError]; both tests come before the variable type is
    looked at, the object is unchanged and no warning is issued. *)
Theorem number_of_points_setter_rejects (value : val)
    (w : world Facade.ControlledVariable) :
  match isinstance_int value with
  | Some v => v <= 0
  | None => True
  end ->
  Facade.number_of_points_setter value w
  = (Raise (match isinstance_int value with
            | Some _ => ValueError
            | None => TypeError
            end), w).
Proof.
  unfold Facade.number_of_points_setter.
  destruct (isinstance_int value) as [v|]; [|done].
  intros Hv. by destruct (Z.leb_spec v 0); [|lia].
Qed.

(** X23.  On a dimension that is not linear, assigning the count it
    already has is accepted silently: the slot is written with the
    object given ([True] for a count of one) and no warning is
    issued. *)
Theorem number_of_points_setter_same_count (value : val) (v : Z) (a : attr)
    (w : world Facade.ControlledVariable) :
  Facade.variable_type (Facade.gcv (this w))
  <> Facade._quantitative_variable_types_0 ->
  isinstance_int value = Some v ->
  0 < v ->
  Facade.number_of_points (this w) = Ok a ->
  Facade.as_int a = Ok v ->
  Facade.number_of_points_setter value w
  = (Ok tt,
     mkWorld
       (Facade.mkCV
          (Facade.mkGcv (Facade.variable_type (Facade.gcv (this w)))
             (<["_number_of_points" := AVal value]>
                (Facade.slots (Facade.gcv (this w))))))
       (events w)).
Proof.
  intros Hne Hv Hpos Ha Hn. apply String.eqb_neq in Hne.
  unfold Facade.number_of_points_setter, Facade.self_gcv, Facade.on_gcv,
    Facade.set_attribute.
  rewrite Hv. destruct (Z.leb_spec v 0); [lia|].
  run. rewrite Hne, mkCV_gcv, Ha. cbn [negb mbind result_bind].
  rewrite Hn.
  destruct (Z.gtb_spec v v); [lia|]. destruct (Z.ltb_spec v v); [lia|].
  reflexivity.
Qed.

(** X24.  [axis_label] of a dimension that is not quantitative returns
    the label only if the label is not blank: with a blank label it
    reads [quantity], which raises [AttributeError] for such a
    dimension. *)
Theorem axis_label_non_quantitative (s : str)
    (self : Facade.ControlledVariable) :
  Facade.is_quantitative_type self = false ->
  Facade.label self = Ok (AVal (VStr s)) ->
  Facade.axis_label self
  = if str_eqb (strip s) [] then Raise AttributeError
    else Ok (AVal (VStr s)).
Proof.
  intros Hq Hl. unfold Facade.axis_label, Facade.quantity.
  rewrite Hl. cbn [mbind result_bind Facade.attr_strip].
  rewrite Hq. by destruct (str_eqb (strip s) []).
Qed.

(** X25.  [label] and [reciprocal_label] can be assigned on every
    variable type, with different checks: [label] refuses what is not a
    string with [TypeError] and leaves the object unchanged, while
    [reciprocal_label] stores any object. *)
Theorem label_setters_checks (value : val)
    (w : world Facade.ControlledVariable) :
  isinstance_str value = None ->
  Facade.label_setter value w = (Raise TypeError, w)
  /\ exists w',
       Facade.reciprocal_label_setter value w = (Ok tt, w')
       /\ Facade.reciprocal_label (this w') = Ok (AVal value).
Proof.
  intros Hv. unfold Facade.label_setter, Facade.reciprocal_label_setter,
    Facade.on_gcv, Facade.set_attribute.
  rewrite Hv. split; [done|]. eexists. run. split; [reflexivity|].
  unfold Facade.reciprocal_label, Facade.getattr. cbn.
  by rewrite lookup_insert_eq.
Qed.

End FacadeProperties.

(** ** [nonLinearQuantitative.py]: recomputation of the coordinates *)

Section StudiumProperties.
Context `{QuantityLib} {helpers : Studium.Helpers}.

(** X26.  With [made_dimensionless] set and origin and reference offset
    adding up to zero, [_getCoordinates] does not raise on the division:
    it stores coordinates none of which is a finite number (each is an
    infinity or nan), whatever happens in the step that follows. *)
Theorem getCoordinates_zero_denominator_is_silent
    (w : world (gmap string attr))
    (u : Unit) (ro oo r o d : Qty) (X X1 : QuantityArray Unit) (v : val) :
  this w !! "_unit" = Some (AUnit u) ->
  this w !! "_reference_offset" = Some (AQuantity ro) ->
  this w !! "_origin_offset" = Some (AQuantity oo) ->
  this w !! "_coordinates" = Some (AArray X) ->
  this w !! "_made_dimensionless" = Some (AVal v) ->
  truthy v = true ->
  to ro u = Ok r ->
  array_minus X r = Ok X1 ->
  to oo u = Ok o ->
  quantity_plus o r = Ok d ->
  is_zero (value_of d) = true ->
  exists res w',
    Studium._getCoordinates w = (res, w')
    /\ this w' !! "_coordinates" = Some (AArray (array_over X1 d))
    /\ List.length (values (array_over X1 d)) = List.length (values X)
    /\ Forall (fun x => forall q, x <> Fin q) (values (array_over X1 d)).
Proof.
  intros Hu Hro Hoo HX Hmd Hv Hr HX1 Ho Hd Hz.
  rewrite (getCoordinates_run w u ro oo r o X X1 v) by done.
  rewrite Hv, Hd. cbn [mbind result_bind]. cbv zeta.
  assert (Hlen : List.length (values (array_over X1 d))
                 = List.length (values X)).
  { unfold array_minus in HX1.
    destruct (to r (array_unit X)); [|done]. injection HX1 as <-.
    unfold array_over. cbn. by rewrite !length_map. }
  assert (Hinf : Forall (fun x => forall q, x <> Fin q)
                   (values (array_over X1 d))).
  { unfold array_over. cbn.
    induction (values X1) as [|x l IH]; cbn; constructor; [|done].
    by apply fdiv_zero_not_finite. }
  destruct (array_plus (array_over X1 d) o).
  - eexists _, _. split; [reflexivity|]. cbn.
    by rewrite lookup_insert_ne, lookup_insert_eq.
  - eexists _, _. split; [reflexivity|]. cbn.
    by rewrite lookup_insert_eq.
Qed.

(** X27.  [_getCoordinates] subtracts the reference offset from the
    stored coordinates and stores the difference in the same slot, so
    every further call subtracts the offset once more: after two calls
    (made_dimensionless off) the coordinates are the original ones
    minus the reference offset taken twice. *)
Theorem getCoordinates_subtracts_again
    (w : world (gmap string attr))
    (u : Unit) (ro oo r o : Qty) (X X1 A1 X2 A2 : QuantityArray Unit)
    (v : val) :
  this w !! "_unit" = Some (AUnit u) ->
  this w !! "_reference_offset" = Some (AQuantity ro) ->
  this w !! "_origin_offset" = Some (AQuantity oo) ->
  this w !! "_coordinates" = Some (AArray X) ->
  this w !! "_made_dimensionless" = Some (AVal v) ->
  truthy v = false ->
  to ro u = Ok r ->
  to oo u = Ok o ->
  array_minus X r = Ok X1 ->
  array_plus X1 o = Ok A1 ->
  array_minus X1 r = Ok X2 ->
  array_plus X2 o = Ok A2 ->
  (Studium._getCoordinates;; Studium._getCoordinates) w
  = (Ok tt,
     mkWorld
       (<["_absolute_coordinates" := AArray A2]>
          (<["_coordinates" := AArray X2]> (this w)))
       (events w)).
Proof.
  intros Hu Hro Hoo HX Hmd Hv Hr Ho HX1 HA1 HX2 HA2.
  cbv [mbind M_bind].
  rewrite (getCoordinates_run w u ro oo r o X X1 v) by done.
  rewrite Hv. cbv zeta. rewrite HA1.
  rewrite (getCoordinates_run _ u ro oo r o X1 X2 v); cbn [this events];
    try done;
    try (by rewrite !lookup_insert_ne);
    try (by rewrite lookup_insert_ne, lookup_insert_eq).
  rewrite Hv. cbv zeta. rewrite HA2. cbn [this events].
  rewrite (insert_insert_ne _ "_coordinates" "_absolute_coordinates")
    by done.
  by rewrite !insert_insert_eq.
Qed.

End StudiumProperties.

Section DimensionlessConversion.
Context `{QuantityLib} {helpers : Studium.Helpers}.

Lemma dimensionlessConversion_nonzero
    (w : world (gmap string attr)) (u : Unit) (old md : bool)
    (oo ro d : Qty) (X : QuantityArray Unit) :
  this w !! "_origin_offset" = Some (AQuantity oo) ->
  this w !! "_reference_offset" = Some (AQuantity ro) ->
  this w !! "_made_dimensionless" = Some (AVal (VBool md)) ->
  this w !! "_coordinates" = Some (AArray X) ->
  quantity_plus oo ro = Ok d ->
  is_zero (value_of d) = false ->
  Studium._dimensionlessConversion u old w
  = if Bool.eqb md old then (Ok tt, w)
    else
      match array_to (if md then array_over X d else array_times X d)
              (if md then _ppm else u) with
      | Ok X' =>
          (Ok tt,
           mkWorld (<["_coordinates" := AArray X']> (this w)) (events w))
      | Raise e => (Raise e, w)
      end.
Proof.
  intros Hoo Hro Hmd HX Hd Hnz.
  unfold Studium._dimensionlessConversion, Studium.origin_offset,
    Studium.reference_offset, Studium.made_dimensionless,
    Studium.coordinates, Studium.slot.
  run. unfold compose.
  rewrite Hoo. cbn [Studium.as_quantity]. rewrite Hro.
  cbn [Studium.as_quantity]. rewrite Hd, Hnz. cbn [negb].
  rewrite Hmd. cbn [Studium.as_bool truthy].
  destruct md, old; cbn [andb negb Bool.eqb]; try reflexivity.
  all: rewrite ?Hmd; cbn [Studium.as_bool truthy andb negb].
  all: rewrite ?Hmd; cbn [Studium.as_bool truthy andb negb].
  all: rewrite ?Hmd; cbn [Studium.as_bool truthy andb negb].
  all: try reflexivity.
  all: rewrite HX; cbn [Studium.as_array].
  - by destruct (array_to (array_over X d) _ppm).
  - by destruct (array_to (array_times X d) u).
Qed.

(** X28.  Assigning [made_dimensionless] while
    [origin_offset + reference_offset] is not zero: the flag is written
    first; if its value did not change the coordinates are left alone,
    if it was switched on they are divided by the sum and expressed in
    ppm, if it was switched off they are multiplied by the sum and
    expressed in the unit of the dimension.  Nothing is printed, and a
    failing conversion leaves the new flag beside the old coordinates. *)
Theorem made_dimensionless_setter_nonzero
    (w : world (gmap string attr)) (value : val) (b old : bool)
    (oo ro d : Qty) (u : Unit) (X : QuantityArray Unit) :
  this w !! "_made_dimensionless" = Some (AVal (VBool old)) ->
  this w !! "_unit" = Some (AUnit u) ->
  this w !! "_origin_offset" = Some (AQuantity oo) ->
  this w !! "_reference_offset" = Some (AQuantity ro) ->
  this w !! "_coordinates" = Some (AArray X) ->
  quantity_plus oo ro = Ok d ->
  is_zero (value_of d) = false ->
  Studium._checkAndAssignBool value = Ok b ->
  Studium.made_dimensionless_setter value w
  = let w1 := mkWorld (<["_made_dimensionless" := AVal (VBool b)]> (this w))
                (events w) in
    if Bool.eqb b old then (Ok tt, w1)
    else
      match array_to (if b then array_over X d else array_times X d)
              (if b then _ppm else u) with
      | Ok X' =>
          (Ok tt,
           mkWorld (<["_coordinates" := AArray X']> (this w1)) (events w))
      | Raise e => (Raise e, w1)
      end.
Proof.
  intros Hold Hu Hoo Hro HX Hd Hnz Hb.
  unfold Studium.made_dimensionless_setter, Studium.made_dimensionless,
    Studium.unit_, Studium.slot.
  run. unfold compose. rewrite Hold. cbn [Studium.as_bool truthy].
  rewrite Hb, setAttribute_made_dimensionless. cbn [this].
  rewrite lookup_insert_ne, Hu by done. cbn [Studium.as_unit].
  rewrite (dimensionlessConversion_nonzero _ u old b oo ro d X);
    cbn [this]; try done;
    by rewrite ?lookup_insert_eq, ?lookup_insert_ne.
Qed.

End DimensionlessConversion.

(** ** Further runs on the sample collaborator *)

Section FurtherRuns.
Import IndependentVariables Sample NumpyWrapper.

(** With three dimensions, the indices 0, -1 and 2 name the axes -1, -3
    and -3. *)
Lemma check_dimension_indices_in_range_run :
  _check_dimension_indices 3 (Tuple [VInt 0; VInt (-1); VInt 2])
  = Ok [-1; -3; -3].
Proof.
  assert (Hl : Forall (fun i => - 3 <= i < 3) [0; -1; 2])
    by (repeat constructor; lia).
  destruct (check_dimension_indices_in_range 3 [0; -1; 2] Hl)
    as (_ & Htuple & _).
  exact Htuple.
Defined.

Lemma check_dimension_indices_other_object_run :
  _check_dimension_indices 2 (Object VNone) = Raise UnboundLocalError.
Proof.
  apply check_dimension_indices_other_object; [reflexivity|].
  intros items. discriminate.
Defined.

(** With two dimensions the index 2 is accepted and names the axis -3. *)
Lemma check_dimension_indices_bounds_run :
  0 <= 2
  /\ exists r,
       _check_dimension_indices 2 (Object (VInt 2)) = Ok [r]
       /\ ~ (- 2 <= r <= -1).
Proof.
  assert (Hd : 0 <= 2) by lia. split; [exact Hd|].
  apply (proj1 (check_dimension_indices_bounds 2 2 Hd)). by left.
Defined.

Lemma fft_index_is_rearranged_range_run :
  0 <= 5
  /\ exists idx,
       fft_index 5 = Ok idx
       /\ List.length idx = 5%nat
       /\ NoDup idx
       /\ Permutation idx [-2; -1; 0; 1; 2].
Proof.
  assert (HN : 0 <= 5) by lia. split; [exact HN|].
  exact (fft_index_is_rearranged_range 5 HN).
Defined.

Lemma fft_output_order_on_then_off_run :
  0 <= _number_of_points (dimension 10)
  /\ (FFT_output_order_setter (VBool true);;
      FFT_output_order_setter (VBool false)) (dimension 10)
     = (Ok tt, dimension 10).
Proof.
  assert (HN : 0 <= _number_of_points (dimension 10)) by (simpl; lia).
  split; [exact HN|].
  exact (proj1 (fft_output_order_on_then_off (dimension 10)
                  (mkQuantity (Fin 1) second) HN eq_refl)).
Defined.

Lemma fft_output_order_negative_count_run :
  _number_of_points (dimension (-2)) < 0
  /\ FFT_output_order_setter (VBool true) (dimension (-2))
     = (Raise ValueError, with_fft_output_order true (dimension (-2)))
  /\ FFT_output_order_setter (VBool false) (dimension (-2))
     = (Ok tt, dimension (-2)).
Proof.
  assert (HN : _number_of_points (dimension (-2)) < 0) by (simpl; lia).
  split; [exact HN|].
  exact (fft_output_order_negative_count (dimension (-2))
           (mkQuantity (Fin 1) second) HN eq_refl).
Defined.

Lemma base_setters_fail_atomically_run :
  snd (period_setter (VStr (py " ")) (base (dimension 10)))
  = base (dimension 10).
Proof.
  apply (base_setters_fail_atomically (VStr (py " ")) VNone
           (period_setter (VStr (py " "))) IndexError).
  - do 2 right. left. reflexivity.
  - reflexivity.
Defined.

(** A negative increment is refused and the cache stays. *)
Lemma increment_setter_failure_run :
  increment_setter (VStr (py "-1 s")) (dimension 10)
  = (Raise ValueError, dimension 10)
  /\ _coordinates (snd (increment_setter (VStr (py "-1 s")) (dimension 10)))
     = _coordinates (dimension 10).
Proof.
  assert (Hrun : increment_setter (VStr (py "-1 s")) (dimension 10)
                 = (Raise ValueError,
                    snd (increment_setter (VStr (py "-1 s")) (dimension 10))))
    by reflexivity.
  split; [reflexivity|].
  exact (proj1 (increment_setter_failure _ _ _ _ Hrun)).
Defined.

Lemma linear_init_postconditions_run :
  exists m,
    to (_increment (dimension 10)) (unit_of (_increment (dimension 10)))
    = Ok m
    /\ _coordinates (dimension 10)
       = index_times (index_array (dimension 10)) m
    /\ is_zero (value_of (_period (base (dimension 10)))) = false.
Proof.
  destruct (linear_init_postconditions 10
              (VStr (py "1 s")) VNone VNone VNone VNone (VStr [])
              (VBool false) VNone VNone VNone (VStr []) VNone
              (dimension 10) eq_refl)
    as (m & _ & _ & Hm & _ & _ & _ & Hp & _ & _ & _ & HX & _).
  exists m. by split; [exact Hm|split; [exact HX|exact Hp]].
Defined.

Lemma arbitrary_values_setter_run :
  let array := [VStr (py "3 s"); VStr (py "4 ms")] in
  let self' := snd (ArbitrarySpacing.values_setter array
                      arbitrary_dimension) in
  ArbitrarySpacing.values self' = array
  /\ ArbitrarySpacing._number_of_points self' = 2
  /\ ArbitrarySpacing.base self'
     = ArbitrarySpacing.base arbitrary_dimension.
Proof.
  intros array self'.
  assert (Hrun : ArbitrarySpacing.values_setter array arbitrary_dimension
                 = (Ok tt, self')) by reflexivity.
  destruct (arbitrary_values_setter_outcome array (Ok tt)
              arbitrary_dimension self' Hrun)
    as (Hv & Hn & _ & _ & Hb & _).
  by split; [exact Hv|split; [exact Hn|exact Hb]].
Defined.

Lemma arbitrary_init_postconditions_run :
  ArbitrarySpacing._number_of_points arbitrary_dimension = 5
  /\ List.length (values (ArbitrarySpacing._coordinates arbitrary_dimension))
     = 5%nat
  /\ _unit (ArbitrarySpacing.reciprocal arbitrary_dimension)
     = unit_inverse second.
Proof.
  destruct (arbitrary_init_postconditions five
              VNone VNone VNone VNone (VStr [])
              VNone VNone VNone (VStr []) VNone
              arbitrary_dimension eq_refl)
    as (first & rest & fq & Hfive & Hfq & _ & Hn & Hlen & _ & _ & Hr & _).
  injection Hfive as <- <-. injection Hfq as <-.
  by split; [exact Hn|split; [exact Hlen|exact Hr]].
Defined.

Lemma labels_values_setter_unsized_run :
  exists self',
    Labels.values_setter (VInt 5) labels3 = (Raise TypeError, self')
    /\ Labels.values self' = VInt 5
    /\ Labels._number_of_points self' = 3.
Proof.
  destruct (labels_values_setter_unsized (VInt 5) labels3 eq_refl)
    as (self' & Hrun & Hv & _ & Hn & _).
  exists self'. by split; [exact Hrun|split; [exact Hv|exact Hn]].
Defined.

(** A key that is not a default key does not reach the
    configuration. *)
Lemma update_defaults_keys_run :
  let input : gmap string val :=
    {[ "number_of_points" := VInt 10; "bogus" := VInt 1 ]} in
  let d := map_fold (Facade.update_key ∅) Facade.defaults input in
  Facade.update_defaults input = Ok d
  /\ d !! "bogus" = None
  /\ is_Some (d !! "label").
Proof.
  intros input d.
  assert (Hd : Facade.update_defaults input = Ok d) by reflexivity.
  split; [exact Hd|].
  destruct (update_defaults_keys input d Hd) as [Hkeys _].
  split.
  - apply eq_None_not_Some. intros Hsome.
    destruct (proj1 (Hkeys "bogus") Hsome) as [v Hv].
    vm_compute in Hv. discriminate Hv.
  - apply (proj2 (Hkeys "label")). exists (VStr []). reflexivity.
Defined.

Lemma non_quantitative_attributes_raise_run :
  Facade.is_quantitative_type (this labeled3) = false
  /\ Facade.period_setter (VInt 1) labeled3 = (Raise AttributeError, labeled3).
Proof.
  assert (Hq : Facade.is_quantitative_type (this labeled3) = false)
    by reflexivity.
  split; [exact Hq|].
  apply (proj1 (non_quantitative_attributes_raise (VInt 1) VNone labeled3 Hq)).
  do 4 right. left. reflexivity.
Defined.

Lemma reference_offset_setter_writes_one_slot_run :
  exists w',
    Facade.reference_offset_setter (VStr (py "2 s")) arbitrary5 = (Ok tt, w')
    /\ Facade.reference_offset (this w')
       = Ok (AQuantity (mkQuantity (Fin 2) second))
    /\ Facade.gcv_coordinates (Facade.gcv (this w'))
       = Facade.gcv_coordinates (Facade.gcv (this arbitrary5)).
Proof.
  assert (Hu : Facade.gcv_unit (Facade.gcv (this arbitrary5)) = Ok second)
    by reflexivity.
  assert (Hq : _assign_and_check_unit_consistency
                 (VStr (py "2 s")) (Some second)
               = Ok (mkQuantity (Fin 2) second)) by reflexivity.
  destruct (reference_offset_setter_writes_one_slot (py "2 s") _ _
              arbitrary5 eq_refl Hu Hq)
    as (w' & Hrun & Hget & _ & _ & Hframe).
  exists w'. split; [exact Hrun|]. split; [exact Hget|].
  cbn. unfold slot_array. by rewrite Hframe.
Defined.

Lemma to_ppm_sets_dimensionless_unit_run :
  strip (py " ppm ") = py "ppm"
  /\ exists w',
       Facade.to_unit (VStr (py " ppm ")) VNone arbitrary5 = (Ok tt, w')
       /\ Facade.gcv_unit (Facade.gcv (this w')) = Ok second.
Proof.
  assert (Hs : strip (py " ppm ") = py "ppm") by reflexivity.
  split; [exact Hs|]. eexists. split.
  - exact (to_ppm_sets_dimensionless_unit (py " ppm ") VNone arbitrary5
             eq_refl Hs).
  - reflexivity.
Defined.

Lemma linear_only_attributes_run :
  Facade.fft_output_order (this arbitrary5) = Raise AttributeError
  /\ Facade.fft_output_order_setter (VBool true) arbitrary5
     = (Raise AttributeError, arbitrary5).
Proof.
  assert (Hne : Facade.variable_type (Facade.gcv (this arbitrary5))
                <> Facade._quantitative_variable_types_0) by discriminate.
  destruct (linear_only_attributes (VBool true) arbitrary5 Hne)
    as (_ & Hget & Hset).
  by split.
Defined.

Lemma number_of_points_setter_rejects_run :
  Facade.number_of_points_setter (VInt 0) arbitrary5
  = (Raise ValueError, arbitrary5)
  /\ Facade.number_of_points_setter (VStr (py "3")) arbitrary5
     = (Raise TypeError, arbitrary5).
Proof.
  split.
  - apply (number_of_points_setter_rejects (VInt 0) arbitrary5).
    simpl. lia.
  - apply (number_of_points_setter_rejects (VStr (py "3")) arbitrary5).
    exact I.
Defined.

Lemma number_of_points_setter_same_count_run :
  0 < 5
  /\ exists w',
       Facade.number_of_points_setter (VInt 5) arbitrary5 = (Ok tt, w')
       /\ events w' = [].
Proof.
  assert (Hpos : 0 < 5) by lia. split; [exact Hpos|].
  eexists. split.
  - apply (number_of_points_setter_same_count (VInt 5) 5 (AVal (VInt 5))
             arbitrary5); [discriminate|reflexivity|exact Hpos
                          |reflexivity|reflexivity].
  - reflexivity.
Defined.

Lemma axis_label_non_quantitative_run :
  Facade.axis_label (this labeled3) = Raise AttributeError.
Proof.
  exact (axis_label_non_quantitative (py " ") (this labeled3)
           eq_refl eq_refl).
Defined.

Lemma label_setters_checks_run :
  Facade.label_setter (VInt 7) arbitrary5 = (Raise TypeError, arbitrary5)
  /\ exists w',
       Facade.reciprocal_label_setter (VInt 7) arbitrary5 = (Ok tt, w')
       /\ Facade.reciprocal_label (this w') = Ok (AVal (VInt 7)).
Proof.
  exact (label_setters_checks (VInt 7) arbitrary5 eq_refl).
Defined.

(** With both offsets zero and [made_dimensionless] set, the three
    coordinates become infinities. *)
Lemma getCoordinates_zero_denominator_run :
  exists res w' X,
    Studium._getCoordinates (nonlinear [1; 2; 3] true) = (res, w')
    /\ this w' !! "_coordinates" = Some (AArray X)
    /\ values X = [PInf; PInf; PInf].
Proof.
  destruct (getCoordinates_zero_denominator_is_silent
              (nonlinear [1; 2; 3] true) second
              (mkQuantity (Fin 0) second) (mkQuantity (Fin 0) second)
              (mkQuantity (Fin 0) second) (mkQuantity (Fin 0) second)
              (mkQuantity (Fin 0) second)
              (mkArray [Fin 1; Fin 2; Fin 3] second)
              (mkArray [Fin 1; Fin 2; Fin 3] second)
              (VBool true)
              eq_refl eq_refl eq_refl eq_refl eq_refl eq_refl
              eq_refl eq_refl eq_refl eq_refl eq_refl)
    as (res & w' & Hrun & HX & _).
  exists res, w'. eexists. split; [exact Hrun|]. split; [exact HX|].
  reflexivity.
Defined.

(** With reference offset 1 s, two recomputations turn 1 s, 2 s, 3 s
    into -1 s, 0 s, 1 s. *)
Lemma getCoordinates_subtracts_again_run :
  exists w',
    (Studium._getCoordinates;; Studium._getCoordinates) shifted
    = (Ok tt, w')
    /\ this w' !! "_coordinates"
       = Some (AArray (mkArray [Fin (-1); Fin 0; Fin 1] second)).
Proof.
  eexists. split.
  - exact (getCoordinates_subtracts_again shifted second
             (mkQuantity (Fin 1) second) (mkQuantity (Fin 0) second)
             (mkQuantity (Fin 1) second) (mkQuantity (Fin 0) second)
             (mkArray [Fin 1; Fin 2; Fin 3] second)
             (mkArray [Fin 0; Fin 1; Fin 2] second)
             (mkArray [Fin 0; Fin 1; Fin 2] second)
             (mkArray [Fin (-1); Fin 0; Fin 1] second)
             (mkArray [Fin (-1); Fin 0; Fin 1] second)
             (VBool false)
             eq_refl eq_refl eq_refl eq_refl eq_refl eq_refl
             eq_refl eq_refl eq_refl eq_refl eq_refl eq_refl).
  - reflexivity.
Defined.

(** Switching the flag on with offsets adding up to 1 s turns the
    coordinates 1 s, 2 s, 3 s into 1e6, 2e6 and 3e6 ppm. *)
Lemma made_dimensionless_setter_nonzero_run :
  exists w',
    Studium.made_dimensionless_setter (VBool true) shifted = (Ok tt, w')
    /\ this w' !! "_coordinates"
       = Some (AArray (mkArray [Fin 1000000; Fin 2000000; Fin 3000000] ppm))
    /\ events w' = [].
Proof.
  eexists. split.
  - exact (made_dimensionless_setter_nonzero shifted (VBool true) true false
             (mkQuantity (Fin 0) second) (mkQuantity (Fin 1) second)
             (mkQuantity (Fin 1) second) second
             (mkArray [Fin 1; Fin 2; Fin 3] second)
             eq_refl eq_refl eq_refl eq_refl eq_refl eq_refl eq_refl
             eq_refl).
  - split; reflexivity.
Defined.

End FurtherRuns.
